(** * Provisioning of the self-served crawler pipelines (setup.py)

    A shallow embedding of [setup.py]: the script that ensures that three
    Elasticsearch ingest pipelines (and, through a function of its own, a
    Vertex AI inference endpoint) exist on a cluster.

    The script talks to three outside parties: the process environment, the
    Google secret manager and the Elasticsearch cluster.  They are gathered
    in a [world] record; every function of the script is a computation that
    reads and updates the world, may raise a Python exception, and leaves a
    trace of the calls it issued and of the lines it printed. *)

From Stdlib Require Import ZArith String Ascii List.
From stdpp Require Import base option list gmap strings.

Open Scope string_scope.

(** ** Python values used as request bodies

    Dict literals keep their insertion order, so a dict is an association
    list. *)

#[local] Set Warnings "-register-all".

Inductive pyval :=
| PStr (s : string)
| PNone
| PBool (b : bool)
| PList (l : list pyval)
| PDict (items : list (string * pyval)).

(** ** Exceptions

    Only subclasses of Python's [Exception] are modelled: these are what the
    client libraries, [os.environ], [assert], [bytes.decode] and
    [json.loads] raise. *)

Inductive exn_class :=
| Exception
| KeyError
| AssertionError
| ValueError
| UnicodeDecodeError
| DefaultCredentialsError
| JSONDecodeError
| GoogleAPICallError
| ConnectionError
| ApiError
| NotFoundError.

#[global] Instance exn_class_eq_dec : EqDecision exn_class.
Proof. solve_decision. Defined.

(** An exception object: its class and what [str(e)] renders. *)
Record exn := Exn { class_of : exn_class; str : string }.

(** [subclass c d]: class [c] is [d] or derives from it.
    [elasticsearch.NotFoundError] derives from [ApiError]; everything
    derives from [Exception]. *)
Definition subclass (c d : exn_class) : bool :=
  match d with
  | Exception => true
  | ApiError => match c with ApiError | NotFoundError => true | _ => false end
  | _ => bool_decide (c = d)
  end.

Definition isinstance (e : exn) (c : exn_class) : bool :=
  subclass (class_of e) c.

(** ** The outside world *)

(** What the cluster answers to an existence check that it cannot serve:
    any error that is not the not-found signal. *)
Inductive failure :=
| Unreachable (msg : string)
| Denied (msg : string).

Definition exn_of_failure (f : failure) : exn :=
  match f with
  | Unreachable msg => Exn ConnectionError msg
  | Denied msg => Exn ApiError msg
  end.

Record pipeline := Pipeline {
  pl_description : string;
  pl_processors : list pyval
}.

Record endpoint := Endpoint {
  ep_task_type : string;
  ep_service_settings : pyval
}.

Record world := World {
  (** [os.environ] *)
  environ : gmap string string;
  (** the secret manager: payload bytes by secret version path, or the
      error every access fails with *)
  secret_manager_down : option exn;
  secret_payloads : gmap string string;
  (** what [es_client.ping()] answers *)
  cluster_alive : bool;
  (** the ingest pipelines and inference endpoints stored on the cluster *)
  pipelines : gmap string pipeline;
  endpoints : gmap string endpoint;
  (** per identifier, the error an existence check fails with and the error
      a create call is rejected with *)
  get_pipeline_failure : gmap string failure;
  put_pipeline_error : gmap string exn;
  get_inference_failure : gmap string failure;
  put_inference_error : gmap string exn;
  (** per hosts string, the error with which the Elasticsearch client refuses
      to be built for it: the client wants a scheme, a host and a port *)
  client_config_error : gmap string exn;
  (** the error with which the secret manager client refuses to be built,
      as on a machine without credentials *)
  credentials_error : option exn
}.

Definition set_pipelines (w : world) (p : gmap string pipeline) : world :=
  World (environ w) (secret_manager_down w) (secret_payloads w)
        (cluster_alive w) p (endpoints w)
        (get_pipeline_failure w) (put_pipeline_error w)
        (get_inference_failure w) (put_inference_error w)
        (client_config_error w) (credentials_error w).

Definition set_endpoints (w : world) (p : gmap string endpoint) : world :=
  World (environ w) (secret_manager_down w) (secret_payloads w)
        (cluster_alive w) (pipelines w) p
        (get_pipeline_failure w) (put_pipeline_error w)
        (get_inference_failure w) (put_inference_error w)
        (client_config_error w) (credentials_error w).

(** ** Calls and printed lines, in the order they happen *)

Inductive event :=
| Print (line : string)
| Ping
| AccessSecretVersion (name : string)
| GetPipeline (id : string)
| PutPipeline (id description : string) (processors : list pyval)
| InferenceGet (task_type inference_id : string)
| PutGoogleVertexAI (inference_id task_type : string) (service_settings : pyval).

(** The create calls of a trace. *)
Definition is_create (ev : event) : bool :=
  match ev with
  | PutPipeline _ _ _ | PutGoogleVertexAI _ _ _ => true
  | _ => false
  end.

Definition creates (t : list event) : list event := List.filter is_create t.

(** The identifier a cluster call is about. *)
Definition resource_of (ev : event) : option string :=
  match ev with
  | GetPipeline id | PutPipeline id _ _ => Some id
  | InferenceGet _ id | PutGoogleVertexAI id _ _ => Some id
  | _ => None
  end.

Definition about (id : string) (ev : event) : bool :=
  match resource_of ev with
  | Some id' => bool_decide (id' = id)
  | None => false
  end.

(** The cluster calls of a trace that name [id]. *)
Definition calls_for (id : string) (t : list event) : list event :=
  List.filter (about id) t.

(** ** Computations: state, exceptions and a trace *)

Inductive outcome (A : Type) :=
| Ok (a : A)
| Raise (e : exn).
Arguments Ok {A} a.
Arguments Raise {A} e.

Record run (A : Type) := Run {
  result : outcome A;
  final : world;
  trace : list event
}.
Arguments Run {A} _ _ _.
Arguments result {A} _.
Arguments final {A} _.
Arguments trace {A} _.

Definition M (A : Type) : Type := world -> run A.

Definition ret {A} (a : A) : M A := fun w => Run (Ok a) w [].

Definition raise {A} (e : exn) : M A := fun w => Run (Raise e) w [].

(** [after w1 t1 k]: from world [w1], reached with trace [t1], go on with
    computation [k]. *)
Definition after {B} (w1 : world) (t1 : list event) (k : M B) : run B :=
  match k w1 with
  | Run o w2 t2 => Run o w2 (t1 ++ t2)
  end.

Definition bind {A B} (m : M A) (k : A -> M B) : M B := fun w =>
  match m w with
  | Run (Ok a) w1 t1 => after w1 t1 (k a)
  | Run (Raise e) w1 t1 => Run (Raise e) w1 t1
  end.

(** [try: m except c as e: h e] *)
Definition try_except {A} (m : M A) (c : exn_class) (h : exn -> M A) : M A :=
  fun w =>
    match m w with
    | Run (Ok a) w1 t1 => Run (Ok a) w1 t1
    | Run (Raise e) w1 t1 =>
        if isinstance e c then after w1 t1 (h e)
        else Run (Raise e) w1 t1
    end.

(** [try: m except c as e: h e else: k], where the [else] suite runs
    outside the protection of the [try]. *)
Definition try_except_else {A B} (m : M A) (c : exn_class)
    (h : exn -> M B) (k : A -> M B) : M B :=
  fun w =>
    match m w with
    | Run (Ok a) w1 t1 => after w1 t1 (k a)
    | Run (Raise e) w1 t1 =>
        if isinstance e c then after w1 t1 (h e)
        else Run (Raise e) w1 t1
    end.

Declare Scope py_scope.
Delimit Scope py_scope with py.
Notation "x <- m ;; k" := (bind m (fun x => k))
  (at level 100, m at next level, right associativity) : py_scope.
Notation "m ;; k" := (bind m (fun _ => k))
  (at level 100, right associativity) : py_scope.
Open Scope py_scope.

Definition print (line : string) : M unit := fun w => Run (Ok tt) w [Print line].

(** ** The clients

    Each call of a client library is a primitive: it records itself in the
    trace and answers from the world. *)

(** [os.environ[key]]; a missing key raises [KeyError(key)], which renders
    as the quoted key. *)
Definition os_environ (key : string) : M string := fun w =>
  match environ w !! key with
  | Some v => Run (Ok v) w []
  | None => Run (Raise (Exn KeyError ("'" +:+ key +:+ "'"))) w []
  end.

(** The handle built by [Elasticsearch(hosts=..., api_key=...)]. *)
Record es_client_t := EsClient { hosts : string; api_key : string }.

(** [Elasticsearch(hosts=..., api_key=...)]: the constructor checks the
    hosts string and raises, before any request, when it refuses it. *)
Definition Elasticsearch (hosts api_key : string) : M es_client_t := fun w =>
  match client_config_error w !! hosts with
  | Some e => Run (Raise e) w []
  | None => Run (Ok (EsClient hosts api_key)) w []
  end.

Definition es_ping (es_client : es_client_t) : M bool := fun w =>
  Run (Ok (cluster_alive w)) w [Ping].

(** The not-found signal of the cluster. *)
Definition not_found (id : string) : exn :=
  Exn NotFoundError ("NotFoundError(404, 'resource_not_found_exception', '" +:+ id +:+ "')").

(** What an existence check answers: the configured failure if there is
    one, else the stored resource, else the not-found signal. *)
Definition existence {A} (failures : gmap string failure)
    (store : gmap string A) (id : string) : outcome A :=
  match failures !! id with
  | Some f => Raise (exn_of_failure f)
  | None =>
      match store !! id with
      | Some a => Ok a
      | None => Raise (not_found id)
      end
  end.

(** The answer of the cluster to an existence check of pipeline [id]. *)
Definition check_pipeline (w : world) (id : string) : outcome pipeline :=
  existence (get_pipeline_failure w) (pipelines w) id.

(** The answer of the cluster to an existence check of an inference
    endpoint: an endpoint stored under another task type is not found. *)
Definition check_endpoint (w : world) (task_type inference_id : string)
    : outcome endpoint :=
  match existence (get_inference_failure w) (endpoints w) inference_id with
  | Ok ep =>
      if bool_decide (ep_task_type ep = task_type) then Ok ep
      else Raise (not_found inference_id)
  | Raise e => Raise e
  end.

(** An existence check reports found, or reports the not-found signal. *)
Definition found {A} (o : outcome A) : bool :=
  match o with
  | Ok _ => true
  | Raise _ => false
  end.

Definition absent {A} (o : outcome A) : bool :=
  match o with
  | Ok _ => false
  | Raise e => isinstance e NotFoundError
  end.

(** [es_client.ingest.get_pipeline(id=...)] *)
Definition ingest_get_pipeline (es_client : es_client_t) (id : string)
    : M pipeline := fun w =>
  Run (check_pipeline w id) w [GetPipeline id].

(** [es_client.ingest.put_pipeline(id=..., description=..., processors=...)]:
    creates or overwrites the pipeline, unless the cluster rejects it. *)
Definition ingest_put_pipeline (es_client : es_client_t)
    (id description : string) (processors : list pyval) : M unit := fun w =>
  match put_pipeline_error w !! id with
  | Some e => Run (Raise e) w [PutPipeline id description processors]
  | None =>
      Run (Ok tt)
          (set_pipelines w (<[id := Pipeline description processors]> (pipelines w)))
          [PutPipeline id description processors]
  end.

(** [es_client.inference.get(task_type=..., inference_id=...)] *)
Definition inference_get (es_client : es_client_t)
    (task_type inference_id : string) : M endpoint := fun w =>
  Run (check_endpoint w task_type inference_id) w
      [InferenceGet task_type inference_id].

(** [es_client.inference.put_googlevertexai(googlevertexai_inference_id=...,
    task_type=..., service=..., service_settings=...)].  The client checks
    its arguments before it sends anything: an empty task type, an empty
    identifier or a missing [service] raises [ValueError]. *)
Definition inference_put_googlevertexai (es_client : es_client_t)
    (googlevertexai_inference_id task_type : string) (service : option string)
    (service_settings : pyval) : M unit := fun w =>
  let call :=
    [PutGoogleVertexAI googlevertexai_inference_id task_type service_settings] in
  if bool_decide (task_type = EmptyString) then
    Run (Raise (Exn ValueError "Empty value passed for parameter 'task_type'"))
        w call
  else if bool_decide (googlevertexai_inference_id = EmptyString) then
    Run (Raise (Exn ValueError
                  "Empty value passed for parameter 'googlevertexai_inference_id'"))
        w call
  else
    match service with
    | None =>
        Run (Raise (Exn ValueError "Empty value passed for parameter 'service'"))
            w call
    | Some _ =>
        match put_inference_error w !! googlevertexai_inference_id with
        | Some e => Run (Raise e) w call
        | None =>
            Run (Ok tt)
                (set_endpoints w
                   (<[googlevertexai_inference_id :=
                        Endpoint task_type service_settings]> (endpoints w)))
                call
        end
    end.

(** [secretmanager.SecretManagerServiceClient()]: fails where the machine
    has no credentials. *)
Definition SecretManagerServiceClient : M unit := fun w =>
  match credentials_error w with
  | Some e => Run (Raise e) w []
  | None => Run (Ok tt) w []
  end.

(** [client.secret_version_path(project, secret, version)] *)
Definition secret_version_path (project secret version : string) : string :=
  "projects/" +:+ project +:+ "/secrets/" +:+ secret +:+ "/versions/" +:+ version.

(** [client.access_secret_version(name=...)]: the payload bytes. *)
Definition access_secret_version (name : string) : M string := fun w =>
  Run (match secret_manager_down w with
       | Some e => Raise e
       | None =>
           match secret_payloads w !! name with
           | Some data => Ok data
           | None => Raise (Exn GoogleAPICallError ("404 Secret Version [" +:+ name +:+ "] not found."))
           end
       end)
      w [AccessSecretVersion name].

(** ** Module-level constants of the script *)

Definition dq : string := String "034"%char EmptyString.
Definition nl : string := String "010"%char EmptyString.

(** A multi-line string literal, line by line. *)
Definition unlines (lines : list string) : string := String.concat nl lines.

Definition EMBEDDING_MODEL_ID : string := "text-embedding-005".

Definition JOIN_HEADERS_PROCESSOR : pyval :=
  PDict [("join", PDict [
    ("field", PStr "headings");
    ("separator", PStr ", ");
    ("on_failure", PList [PDict [("set", PDict [("field", PStr "headings"); ("value", PStr EmptyString)])]])
  ])].

Definition SET_BODY_PROCESSOR : pyval :=
  PDict [("set", PDict [
    ("field", PStr "text");
    ("value", PStr (unlines [
      EmptyString;
      "      Meta Description: {{{meta_description}}}";
      "      Headings: {{{headings}}}";
      "      Body: {{{body}}} {{{body_content}}}";
      "    "
    ]))
  ])].

Definition REMOVE_FIELDS_PROCESSOR : pyval :=
  PDict [("script", PDict [
    ("source", PStr (unlines [
      EmptyString;
      "          String[] fieldsToRemove = new String[] {";
      "            " +:+ dq +:+ "body" +:+ dq +:+ ",";
      "            " +:+ dq +:+ "body_content" +:+ dq +:+ ",";
      "            " +:+ dq +:+ "meta_description" +:+ dq +:+ ",";
      "            " +:+ dq +:+ "headings" +:+ dq +:+ ",";
      "            " +:+ dq +:+ "links" +:+ dq +:+ ",";
      "            " +:+ dq +:+ "url_port" +:+ dq +:+ ",";
      "            " +:+ dq +:+ "url_host" +:+ dq +:+ ",";
      "            " +:+ dq +:+ "url_path" +:+ dq +:+ ",";
      "            " +:+ dq +:+ "url_path_dir1" +:+ dq +:+ ",";
      "            " +:+ dq +:+ "url_path_dir2" +:+ dq +:+ ",";
      "            " +:+ dq +:+ "url_path_dir3" +:+ dq +:+ ",";
      "            " +:+ dq +:+ "additional_urls" +:+ dq +:+ ",";
      "            " +:+ dq +:+ "domains" +:+ dq +:+ ",";
      "            " +:+ dq +:+ "url_scheme" +:+ dq;
      "          };";
      "          for (field in fieldsToRemove) {";
      "              if (ctx.containsKey(field)) {";
      "                  ctx.remove(field);";
      "              }";
      "          }";
      "        "
    ]));
    ("description", PStr "Runs a script to remove unnecessary fields")
  ])].

Definition SET_DATES_PROCESSOR : pyval :=
  PDict [("script", PDict [
    ("source", PStr (unlines [
      EmptyString;
      "        if (ctx.containsKey(" +:+ dq +:+ "last_crawled_at" +:+ dq +:+ ") && ctx.last_crawled_at != null) {";
      "            ctx.date = ctx.last_crawled_at;";
      "        } else {";
      "            ctx.date = (new Date()).getTime();";
      "            ctx.last_crawled_at = ctx.date;";
      "        }";
      "        "
    ]));
    ("description", PStr "Sets the date field based on last_crawled_at or current time")
  ])].

Definition SPLIT_URL_PROCESSOR : pyval :=
  PDict [("uri_parts", PDict [
    ("field", PStr "url");
    ("target_field", PStr "temp_url_parts");
    ("keep_original", PBool true);
    ("ignore_failure", PBool true)
  ])].

Definition NORMALIZED_URL_PROCESSOR : pyval :=
  PDict [("script", PDict [
    ("if", PStr "ctx.containsKey('temp_url_parts')");
    ("source", PStr (unlines [
      EmptyString;
      "    def parts = ctx.temp_url_parts;";
      "    String path = parts.path;";
      "    ";
      "    // 1. Handle the path (remove trailing slash)";
      "    if (path != null && path.endsWith('/') && path.length() > 0) {";
      "      path = path.substring(0, path.length() - 1);";
      "    } else if (path == null) {";
      "      path = " +:+ dq +:+ dq +:+ ";";
      "    }";
      "    ";
      "    // 2. Rebuild the normalized URL";
      "    String normalized = parts.scheme + " +:+ dq +:+ "://" +:+ dq +:+ " + parts.domain;";
      "    ";
      "    // 3. Add port only if it exists";
      "    if (parts.port != null) {";
      "      normalized += " +:+ dq +:+ ":" +:+ dq +:+ " + parts.port;";
      "    }";
      "    ";
      "    // 4. Add the cleaned path";
      "    normalized += path;";
      "    ctx.normalized_url = normalized;";
      "  "
    ]))
  ])].

Definition REMOVE_TEMP_URL_PARTS_PROCESSOR : pyval :=
  PDict [("remove", PDict [
    ("field", PStr "temp_url_parts");
    ("ignore_failure", PBool true)
  ])].

Definition VERTEXAI_EMBEDDINGS_PROCESSOR : pyval :=
  PDict [("inference", PDict [
    ("model_id", PStr "vertexai_embeddings");
    ("input_output", PDict [
      ("input_field", PStr "text");
      ("output_field", PStr ("embeddings." +:+ EMBEDDING_MODEL_ID))
    ])
  ])].

(** ** Python's view of an [Optional[str]] *)

(** Truth value: [None] and the empty string are false. *)
Definition truthy (o : option string) : bool :=
  match o with
  | Some s => negb (bool_decide (s = EmptyString))
  | None => false
  end.

Definition pyval_of (o : option string) : pyval :=
  match o with
  | Some s => PStr s
  | None => PNone
  end.

(** How the script ends: through [exit(code)], or by running off its last
    line, which the interpreter turns into status 0. *)
Inductive termination :=
| Exit (code : Z)
| EndOfScript.

Definition exit_status (t : termination) : Z :=
  match t with
  | Exit code => code
  | EndOfScript => 0
  end.

(** ** The functions of the script *)

Section Script.

(** Two library functions the script applies to the secret:
    [bytes.decode("UTF-8")], which returns the text or raises on bytes that
    are not UTF-8, and [json.loads], which returns the parsed value or
    raises. *)
Variable utf8_decode : string -> outcome string.
Variable json_loads : string -> outcome pyval.

Definition get_es_client : M es_client_t :=
  ES_HOST <- os_environ "ES_HOST" ;;
  ES_PORT <- os_environ "ES_PORT" ;;
  ES_API_KEY <- os_environ "ES_API_KEY" ;;
  es_client <- Elasticsearch (ES_HOST +:+ ":" +:+ ES_PORT) ES_API_KEY ;;
  alive <- es_ping es_client ;;
  if alive then ret es_client
  else raise (Exn AssertionError "Elasticsearch cluster is not reachable").

Definition decode_utf8 (data : string) : M string := fun w =>
  Run (utf8_decode data) w [].

Definition fetch_gcp_secret : M string :=
  let SECRET_NAME := "snippets-api-project-service-account-json" in
  let SECRET_MANAGER_PROJECT_ID := "rag-query-analytics" in
  SecretManagerServiceClient ;;
  let secret_version :=
    secret_version_path SECRET_MANAGER_PROJECT_ID SECRET_NAME "latest" in
  data <- access_secret_version secret_version ;;
  secret_value <- decode_utf8 data ;;
  try_except
    (fun w => Run (json_loads secret_value) w [])
    JSONDecodeError
    (fun _ => raise (Exn Exception "Secret is not a valid JSON string")) ;;
  ret secret_value.

Definition setup_ingest_pipeline (es_client : es_client_t)
    (pipeline_id description : string) (processors : list pyval)
    : M (option string) :=
  try_except
    (ingest_get_pipeline es_client pipeline_id ;;
     print ("Ingest pipeline '" +:+ pipeline_id +:+ "' already exists.") ;;
     ret (Some pipeline_id))
    NotFoundError
    (fun _ =>
       try_except
         (ingest_put_pipeline es_client pipeline_id description processors ;;
          print ("Ingest pipeline '" +:+ pipeline_id +:+ "' has been created.") ;;
          ret (Some pipeline_id))
         Exception
         (fun e =>
            print ("Error creating ingest pipeline '" +:+ pipeline_id +:+ "': " +:+ str e) ;;
            ret None)).

Definition create_vertexai_embedding_inference_endpoint
    (es_client : es_client_t) (inference_id : string) : M (option string) :=
  let TASK_TYPE := "text_embedding" in
  let SERVICE_ACCOUNT_PROJECT_ID := "snippets-api-434014" in
  let SERVICE_ACCOUNT_LOCATION := "us-central1" in
  SERVICE_ACCOUNT_JSON <- fetch_gcp_secret ;;
  try_except
    (inference_get es_client TASK_TYPE inference_id ;;
     print ("Inference endpoint '" +:+ inference_id +:+ "' already exists.") ;;
     ret (Some inference_id))
    NotFoundError
    (fun _ =>
       try_except
         (inference_put_googlevertexai es_client inference_id "text_embedding"
            None
            (PDict [
               ("model_id", PStr EMBEDDING_MODEL_ID);
               ("service_account_json", PStr SERVICE_ACCOUNT_JSON);
               ("location", PStr SERVICE_ACCOUNT_LOCATION);
               ("project_id", PStr SERVICE_ACCOUNT_PROJECT_ID)
            ]) ;;
          print ("Inference endpoint '" +:+ inference_id +:+ "' has been created.") ;;
          ret (Some inference_id))
         Exception
         (fun e =>
            print ("Error creating inference endpoint '" +:+ inference_id +:+ "': " +:+ str e) ;;
            ret None)).

Definition create_normalizer_pipeline (es_client : es_client_t)
    : M (option string) :=
  let pipeline_id := "es-crawler-normalizer-pipeline" in
  let description := "Pipeline to normalize crawled data" in
  let processors := [
    JOIN_HEADERS_PROCESSOR;
    SET_BODY_PROCESSOR;
    REMOVE_FIELDS_PROCESSOR;
    SET_DATES_PROCESSOR;
    SPLIT_URL_PROCESSOR;
    NORMALIZED_URL_PROCESSOR;
    REMOVE_TEMP_URL_PARTS_PROCESSOR
  ] in
  setup_ingest_pipeline es_client pipeline_id description processors.

Definition create_embedding_pipeline (es_client : es_client_t)
    : M (option string) :=
  let pipeline_id := "es-crawler-embedding-pipeline" in
  let description := "Pipeline to generate embeddings for crawled data" in
  let processors := [VERTEXAI_EMBEDDINGS_PROCESSOR] in
  setup_ingest_pipeline es_client pipeline_id description processors.

Definition create_self_served_crawler_pipelines (es_client : es_client_t)
    : M bool :=
  normalizer_pipeline_id <- create_normalizer_pipeline es_client ;;
  if negb (truthy normalizer_pipeline_id) then
    print "Failed to create normalizer pipeline." ;;
    ret false
  else
  embedding_pipeline_id <- create_embedding_pipeline es_client ;;
  if negb (truthy embedding_pipeline_id) then
    print "Failed to create embedding pipeline." ;;
    ret false
  else
  self_served_pipeline_id <-
    setup_ingest_pipeline es_client
      "self-served-crawler-pipeline"
      "Pipeline for self-served crawler to normalize and generate embeddings"
      [ PDict [("pipeline", PDict [("name", PStr "search-default-ingestion")])];
        PDict [("pipeline", PDict [("name", pyval_of normalizer_pipeline_id)])];
        PDict [("pipeline", PDict [("name", pyval_of embedding_pipeline_id)])] ] ;;
  if negb (truthy self_served_pipeline_id) then
    print "Failed to create self-served crawler pipeline." ;;
    ret false
  else
  ret true.

(** The [__main__] block.  The [except] suite prints, sets
    [success = False] and is followed by no statement: the script then runs
    off its last line. *)
Definition main : M termination :=
  try_except_else
    (print "Setting up self-served crawler pipelines..." ;;
     es_client <- get_es_client ;;
     create_self_served_crawler_pipelines es_client)
    Exception
    (fun e =>
       print ("An error occurred: " +:+ str e) ;;
       ret EndOfScript)
    (fun success =>
       if (success : bool) then
         print "Self-served crawler pipelines have been set up successfully." ;;
         ret (Exit 0)
       else
         print "Failed to set up self-served crawler pipelines." ;;
         ret (Exit 1)).

(** The exit code of the process: an exception that escapes the script
    makes the interpreter exit with status 1. *)
Definition exit_code (w : world) : Z :=
  match result (main w) with
  | Ok t => exit_status t
  | Raise _ => 1
  end.

End Script.

(** The name under which [fetch_gcp_secret] asks for the secret. *)
Definition secret_version : string :=
  secret_version_path "rag-query-analytics"
    "snippets-api-project-service-account-json" "latest".

(** The three pipeline identifiers of the script. *)
Definition normalizer_id : string := "es-crawler-normalizer-pipeline".
Definition embedding_id : string := "es-crawler-embedding-pipeline".
Definition self_served_id : string := "self-served-crawler-pipeline".

Definition self_served_description : string :=
  "Pipeline for self-served crawler to normalize and generate embeddings".

(** A by-name reference to another pipeline, as a processor. *)
Definition pipeline_ref (name : string) : pyval :=
  PDict [("pipeline", PDict [("name", PStr name)])].

(** The error with which the client refuses the create call of the
    inference endpoint as the script makes it, without [service]. *)
Definition missing_argument (inference_id : string) : exn :=
  if bool_decide (inference_id = EmptyString)
  then Exn ValueError
           "Empty value passed for parameter 'googlevertexai_inference_id'"
  else Exn ValueError "Empty value passed for parameter 'service'".

(** The request body of the inference endpoint, for a given secret. *)
Definition service_settings (secret : string) : pyval :=
  PDict [
    ("model_id", PStr EMBEDDING_MODEL_ID);
    ("service_account_json", PStr secret);
    ("location", PStr "us-central1");
    ("project_id", PStr "snippets-api-434014") ].

(** The four ways an ensure call of a pipeline can go, read off the
    answers of the cluster. *)
Inductive ensure_run (id d : string) (ps : list pyval) (w : world)
    : run (option string) -> Prop :=
| ensure_found p :
    check_pipeline w id = Ok p ->
    ensure_run id d ps w
      (Run (Ok (Some id)) w
         [GetPipeline id;
          Print ("Ingest pipeline '" +:+ id +:+ "' already exists.")])
| ensure_created e :
    check_pipeline w id = Raise e ->
    isinstance e NotFoundError = true ->
    put_pipeline_error w !! id = None ->
    ensure_run id d ps w
      (Run (Ok (Some id))
         (set_pipelines w (<[id := Pipeline d ps]> (pipelines w)))
         [GetPipeline id; PutPipeline id d ps;
          Print ("Ingest pipeline '" +:+ id +:+ "' has been created.")])
| ensure_rejected e e' :
    check_pipeline w id = Raise e ->
    isinstance e NotFoundError = true ->
    put_pipeline_error w !! id = Some e' ->
    ensure_run id d ps w
      (Run (Ok None) w
         [GetPipeline id; PutPipeline id d ps;
          Print ("Error creating ingest pipeline '" +:+ id +:+ "': " +:+ str e')])
| ensure_raised e :
    check_pipeline w id = Raise e ->
    isinstance e NotFoundError = false ->
    ensure_run id d ps w (Run (Raise e) w [GetPipeline id]).

(** The calls that provision the inference endpoint: the access to the
    secret and the two calls of the inference API. *)
Definition endpoint_call (ev : event) : bool :=
  match ev with
  | AccessSecretVersion _ | InferenceGet _ _ | PutGoogleVertexAI _ _ _ => true
  | _ => false
  end.

(** Idempotence of the sequence from world [w], as the specification words
    it: a second run, started where the first one ended, issues no create
    call, gives the result of the first run and changes nothing. *)
Definition idempotent_from (c : es_client_t) (w : world) : Prop :=
  let first := create_self_served_crawler_pipelines c w in
  let second := create_self_served_crawler_pipelines c (final first) in
  creates (trace second) = []
  /\ result second = result first
  /\ final second = final first.

(** ** Example worlds *)

(** Stand-ins for the two library functions: the identity decoding, and a
    parser that accepts what starts with an opening brace. *)
Definition example_utf8_decode (data : string) : outcome string := Ok data.

Definition example_json_loads (text : string) : outcome pyval :=
  if String.prefix "{" text then Ok (PDict [])
  else Raise (Exn JSONDecodeError "Expecting value: line 1 column 1 (char 0)").

Definition example_environ : gmap string string :=
  <["ES_HOST" := "https://es.example.org"]>
    (<["ES_PORT" := "9243"]> (<["ES_API_KEY" := "secret-key"]> ∅)).

Definition example_client : es_client_t :=
  EsClient "https://es.example.org:9243" "secret-key".

(** A reachable cluster that stores nothing and refuses nothing; the secret
    is a JSON object. *)
Definition fresh_world : world :=
  World example_environ None (<[secret_version := "{}"]> ∅) true ∅ ∅ ∅ ∅ ∅ ∅ ∅ None.

(** The same, with no environment variable set. *)
Definition world_without_environ : world :=
  World ∅ None (<[secret_version := "{}"]> ∅) true ∅ ∅ ∅ ∅ ∅ ∅ ∅ None.

(** The same as [fresh_world], but the secret is not JSON. *)
Definition world_with_bad_secret : world :=
  World example_environ None (<[secret_version := "not json"]> ∅) true ∅ ∅ ∅ ∅ ∅ ∅ ∅ None.

Definition bad_request : exn :=
  Exn ApiError "BadRequestError(400, 'illegal_argument_exception')".

Definition timed_out : exn := Exn ConnectionError "Connection timed out".

(** An empty cluster that rejects the creation of the normalizer pipeline
    and of the inference endpoint. *)
Definition rejecting_world : world :=
  World example_environ None (<[secret_version := "{}"]> ∅) true ∅ ∅
        ∅ (<[normalizer_id := bad_request]> ∅)
        ∅ (<["vertexai_embeddings" := bad_request]> ∅) ∅ None.

Definition embedding_rejecting_world : world :=
  World example_environ None (<[secret_version := "{}"]> ∅) true ∅ ∅
        ∅ (<[embedding_id := bad_request]> ∅) ∅ ∅ ∅ None.

(** An empty cluster whose existence checks of the normalizer pipeline and
    of the inference endpoint time out. *)
Definition unreachable_world : world :=
  World example_environ None (<[secret_version := "{}"]> ∅) true ∅ ∅
        (<[normalizer_id := Unreachable "Connection timed out"]> ∅) ∅
        (<["vertexai_embeddings" := Unreachable "Connection timed out"]> ∅) ∅ ∅ None.

(** A cluster on which the normalizer pipeline and the inference endpoint
    already exist. *)
Definition provisioned_world : world :=
  World example_environ None (<[secret_version := "{}"]> ∅) true
        (<[normalizer_id := Pipeline "installed by hand" []]> ∅)
        (<["vertexai_embeddings" := Endpoint "text_embedding" PNone]> ∅)
        ∅ ∅ ∅ ∅ ∅ None.

(** ** The three ensure calls of the sequence *)

Definition normalizer_description : string := "Pipeline to normalize crawled data".

Definition normalizer_processors : list pyval :=
  [JOIN_HEADERS_PROCESSOR; SET_BODY_PROCESSOR; REMOVE_FIELDS_PROCESSOR;
   SET_DATES_PROCESSOR; SPLIT_URL_PROCESSOR; NORMALIZED_URL_PROCESSOR;
   REMOVE_TEMP_URL_PARTS_PROCESSOR].

Definition embedding_description : string :=
  "Pipeline to generate embeddings for crawled data".

Definition embedding_processors : list pyval := [VERTEXAI_EMBEDDINGS_PROCESSOR].

Definition self_served_processors : list pyval :=
  [pipeline_ref "search-default-ingestion";
   pipeline_ref normalizer_id;
   pipeline_ref embedding_id].

(** The runs of the first, second and third ensure call of the sequence
    started in [w]; the second and third are meaningful when the sequence
    reaches them. *)
Definition normalizer_step (c : es_client_t) (w : world) : run (option string) :=
  create_normalizer_pipeline c w.

Definition embedding_step (c : es_client_t) (w : world) : run (option string) :=
  create_embedding_pipeline c (final (normalizer_step c w)).

Definition self_served_step (c : es_client_t) (w : world) : run (option string) :=
  setup_ingest_pipeline c self_served_id self_served_description
    self_served_processors (final (embedding_step c w)).

(** [w'] differs from [w] in its stored pipelines at most. *)
Definition same_but_pipelines (w w' : world) : Prop :=
  w' = set_pipelines w (pipelines w').

(** The cluster neither fails the existence check of pipeline [id] nor
    rejects its creation. *)
Definition accepts (w : world) (id : string) : Prop :=
  get_pipeline_failure w !! id = None /\ put_pipeline_error w !! id = None.

(** The create call to expect for pipeline [id]: one if it is absent. *)
Definition create_if_absent (w : world) (id d : string) (ps : list pyval)
    : list event :=
  if absent (check_pipeline w id) then [PutPipeline id d ps] else [].

(** A call that names a resource of the cluster. *)
Definition cluster_call (ev : event) : bool :=
  match resource_of ev with
  | Some _ => true
  | None => false
  end.

(** [checked_before_create prev t]: in trace [t], which follows event
    [prev], every create call comes right after the existence check of the
    same resource. *)
Fixpoint checked_before_create (prev : option event) (t : list event) : bool :=
  match t with
  | [] => true
  | ev :: t' =>
      match ev with
      | PutPipeline id _ _ =>
          match prev with
          | Some (GetPipeline id') => bool_decide (id' = id)
          | _ => false
          end
      | PutGoogleVertexAI id _ _ =>
          match prev with
          | Some (InferenceGet _ id') => bool_decide (id' = id)
          | _ => false
          end
      | _ => true
      end && checked_before_create (Some ev) t'
  end.

(** The lines a trace prints. *)
Definition printed (t : list event) : list string :=
  omap (fun ev => match ev with Print line => Some line | _ => None end) t.

(** The first of the three required variables that the environment lacks,
    in the order the client factory reads them. *)
Definition first_missing (w : world) : option string :=
  List.find
    (fun key => match environ w !! key with None => true | Some _ => false end)
    ["ES_HOST"; "ES_PORT"; "ES_API_KEY"].

(** An environment with the three variables, in front of a cluster that
    does not answer the ping. *)
Definition silent_world : world :=
  World example_environ None (<[secret_version := "{}"]> ∅) false ∅ ∅ ∅ ∅ ∅ ∅ ∅ None.

(** A decoder for payloads of ASCII bytes, and a world whose secret is the
    single byte 255, which is not UTF-8: the error is the one Python gives
    for that payload. *)
Definition is_ascii (a : ascii) : bool :=
  match a with
  | Ascii _ _ _ _ _ _ _ high => negb high
  end.

Fixpoint all_ascii (data : string) : bool :=
  match data with
  | EmptyString => true
  | String a rest => is_ascii a && all_ascii rest
  end.

Definition invalid_start_byte : exn :=
  Exn UnicodeDecodeError
      "'utf-8' codec can't decode byte 0xff in position 0: invalid start byte".

Definition example_ascii_decode (data : string) : outcome string :=
  if all_ascii data then Ok data else Raise invalid_start_byte.

Definition world_with_binary_secret : world :=
  World example_environ None
        (<[secret_version := String "255"%char EmptyString]> ∅)
        true ∅ ∅ ∅ ∅ ∅ ∅ ∅ None.

(** A world whose secret manager refuses every access. *)
Definition permission_denied : exn :=
  Exn GoogleAPICallError "403 Permission denied on resource project".

Definition world_without_secret_access : world :=
  World example_environ (Some permission_denied) ∅ true ∅ ∅ ∅ ∅ ∅ ∅ ∅ None.

(** A machine without credentials for the secret manager. *)
Definition no_credentials : exn :=
  Exn DefaultCredentialsError
      "Your default credentials were not found.".

Definition world_without_credentials : world :=
  World example_environ None (<[secret_version := "{}"]> ∅) true ∅ ∅ ∅ ∅ ∅ ∅
        ∅ (Some no_credentials).

(** An environment whose host has no scheme, which the Elasticsearch client
    refuses, in front of a cluster that would answer. *)
Definition missing_scheme : exn :=
  Exn ValueError
      "URL must include a 'scheme', 'host', and 'port' component (ie 'https://localhost:9200')".

Definition world_with_bare_host : world :=
  World (<["ES_HOST" := "es.example.org"]>
           (<["ES_PORT" := "9243"]> (<["ES_API_KEY" := "secret-key"]> ∅)))
        None (<[secret_version := "{}"]> ∅) true ∅ ∅ ∅ ∅ ∅ ∅
        (<["es.example.org:9243" := missing_scheme]> ∅) None.

(** A cluster that rejects the creation of the composite pipeline only. *)
Definition self_served_rejecting_world : world :=
  World example_environ None (<[secret_version := "{}"]> ∅) true ∅ ∅
        ∅ (<[self_served_id := bad_request]> ∅) ∅ ∅ ∅ None.

(** * Facts *)

Section Facts.

Variable utf8_decode : string -> outcome string.
Variable json_loads : string -> outcome pyval.

(** ** One ensure call, case by case *)

Lemma exn_of_failure_not_found f :
  isinstance (exn_of_failure f) NotFoundError = false.
Proof. destruct f; reflexivity. Qed.

Lemma setup_ingest_pipeline_eq c id d ps w :
  setup_ingest_pipeline c id d ps w =
  match check_pipeline w id with
  | Ok _ =>
      Run (Ok (Some id)) w
          [GetPipeline id; Print ("Ingest pipeline '" +:+ id +:+ "' already exists.")]
  | Raise e =>
      if isinstance e NotFoundError then
        match put_pipeline_error w !! id with
        | None =>
            Run (Ok (Some id))
                (set_pipelines w (<[id := Pipeline d ps]> (pipelines w)))
                [GetPipeline id; PutPipeline id d ps;
                 Print ("Ingest pipeline '" +:+ id +:+ "' has been created.")]
        | Some e' =>
            Run (Ok None) w
                [GetPipeline id; PutPipeline id d ps;
                 Print ("Error creating ingest pipeline '" +:+ id +:+ "': " +:+ str e')]
        end
      else Run (Raise e) w [GetPipeline id]
  end.
Proof.
  unfold setup_ingest_pipeline, try_except, bind, after, ingest_get_pipeline,
    ingest_put_pipeline, print, ret.
  destruct (check_pipeline w id) as [p|e]; [reflexivity|].
  destruct (isinstance e NotFoundError); [|reflexivity].
  destruct (put_pipeline_error w !! id) as [e'|]; reflexivity.
Qed.

(** The secret fetcher leaves the world as it is; it issues no call when
    the client cannot be built, and one access otherwise. *)
Lemma fetch_gcp_secret_eq w :
  fetch_gcp_secret utf8_decode json_loads w =
  match credentials_error w with
  | Some e => Run (Raise e) w []
  | None =>
      Run (match secret_manager_down w with
           | Some e => Raise e
           | None =>
               match secret_payloads w !! secret_version with
               | None =>
                   Raise (Exn GoogleAPICallError
                            ("404 Secret Version [" +:+ secret_version +:+ "] not found."))
               | Some data =>
                   match utf8_decode data with
                   | Raise e => Raise e
                   | Ok text =>
                       match json_loads text with
                       | Ok _ => Ok text
                       | Raise e =>
                           if isinstance e JSONDecodeError
                           then Raise (Exn Exception "Secret is not a valid JSON string")
                           else Raise e
                       end
                   end
               end
           end)
          w [AccessSecretVersion secret_version]
  end.
Proof.
  unfold fetch_gcp_secret, bind, after, SecretManagerServiceClient,
    access_secret_version.
  fold secret_version.
  destruct (credentials_error w) as [e|]; [reflexivity|].
  destruct (secret_manager_down w) as [e|]; [reflexivity|].
  destruct (secret_payloads w !! secret_version) as [data|]; [|reflexivity].
  unfold decode_utf8.
  destruct (utf8_decode data) as [text|e]; [|reflexivity].
  unfold ret, try_except, after, raise.
  destruct (json_loads text) as [v|e]; [reflexivity|].
  destruct (isinstance e JSONDecodeError); reflexivity.
Qed.

Lemma fetch_gcp_secret_run w :
  fetch_gcp_secret utf8_decode json_loads w =
  Run (result (fetch_gcp_secret utf8_decode json_loads w)) w
      (trace (fetch_gcp_secret utf8_decode json_loads w)).
Proof.
  rewrite fetch_gcp_secret_eq.
  destruct (credentials_error w); reflexivity.
Qed.

Lemma fetch_gcp_secret_trace w :
  trace (fetch_gcp_secret utf8_decode json_loads w) = []
  \/ trace (fetch_gcp_secret utf8_decode json_loads w)
     = [AccessSecretVersion secret_version].
Proof.
  rewrite fetch_gcp_secret_eq.
  destruct (credentials_error w); [left | right]; reflexivity.
Qed.

Lemma fetch_gcp_secret_returned w secret :
  result (fetch_gcp_secret utf8_decode json_loads w) = Ok secret ->
  trace (fetch_gcp_secret utf8_decode json_loads w)
  = [AccessSecretVersion secret_version].
Proof.
  rewrite fetch_gcp_secret_eq.
  destruct (credentials_error w); [discriminate | reflexivity].
Qed.

Lemma create_vertexai_embedding_inference_endpoint_eq c id w :
  create_vertexai_embedding_inference_endpoint utf8_decode json_loads c id w =
  match result (fetch_gcp_secret utf8_decode json_loads w) with
  | Raise e =>
      Run (Raise e) w (trace (fetch_gcp_secret utf8_decode json_loads w))
  | Ok secret =>
      match check_endpoint w "text_embedding" id with
      | Ok _ =>
          Run (Ok (Some id)) w
              [AccessSecretVersion secret_version;
               InferenceGet "text_embedding" id;
               Print ("Inference endpoint '" +:+ id +:+ "' already exists.")]
      | Raise e =>
          let body := PDict [
            ("model_id", PStr EMBEDDING_MODEL_ID);
            ("service_account_json", PStr secret);
            ("location", PStr "us-central1");
            ("project_id", PStr "snippets-api-434014") ] in
          if isinstance e NotFoundError then
            Run (Ok None) w
                [AccessSecretVersion secret_version;
                 InferenceGet "text_embedding" id;
                 PutGoogleVertexAI id "text_embedding" body;
                 Print ("Error creating inference endpoint '" +:+ id +:+ "': "
                        +:+ str (missing_argument id))]
          else
            Run (Raise e) w
                [AccessSecretVersion secret_version; InferenceGet "text_embedding" id]
      end
  end.
Proof.
  unfold create_vertexai_embedding_inference_endpoint, bind.
  rewrite (fetch_gcp_secret_run w).
  destruct (result (fetch_gcp_secret utf8_decode json_loads w))
    as [secret|e] eqn:Hfetch; [|reflexivity].
  rewrite (fetch_gcp_secret_returned w secret Hfetch).
  unfold after, try_except, bind, after, inference_get,
    inference_put_googlevertexai, missing_argument, print, ret.
  destruct (check_endpoint w "text_embedding" id) as [ep|e]; [reflexivity|].
  cbv zeta.
  destruct (isinstance e NotFoundError); [|reflexivity].
  rewrite (bool_decide_eq_false_2 ("text_embedding" = EmptyString)) by discriminate.
  destruct (bool_decide (id = EmptyString)); reflexivity.
Qed.


(** ** Claims about one ensure call *)

(** C4. An ensure call whose existence check reports not-found issues
    exactly one create call, whose body is the definition of the resource
    (the arguments of the pipeline; for the normalizer and the embedding
    pipelines their literal processor lists; for the inference endpoint the
    model, the fetched secret, the location and the project).  An ensure
    call whose existence check reports found issues no create call and
    returns the identifier.  The existence check of the inference endpoint
    takes place once its secret has been fetched. *)
Theorem ensure_creates_exactly_when_absent (c : es_client_t) (w : world) :
  (forall id d ps,
      (absent (check_pipeline w id) = true ->
       creates (trace (setup_ingest_pipeline c id d ps w)) = [PutPipeline id d ps])
      /\ (found (check_pipeline w id) = true ->
          creates (trace (setup_ingest_pipeline c id d ps w)) = []
          /\ result (setup_ingest_pipeline c id d ps w) = Ok (Some id)))
  /\ (absent (check_pipeline w normalizer_id) = true ->
      creates (trace (create_normalizer_pipeline c w)) =
      [PutPipeline normalizer_id "Pipeline to normalize crawled data"
         [JOIN_HEADERS_PROCESSOR; SET_BODY_PROCESSOR; REMOVE_FIELDS_PROCESSOR;
          SET_DATES_PROCESSOR; SPLIT_URL_PROCESSOR; NORMALIZED_URL_PROCESSOR;
          REMOVE_TEMP_URL_PARTS_PROCESSOR]])
  /\ (absent (check_pipeline w embedding_id) = true ->
      creates (trace (create_embedding_pipeline c w)) =
      [PutPipeline embedding_id "Pipeline to generate embeddings for crawled data"
         [VERTEXAI_EMBEDDINGS_PROCESSOR]])
  /\ (forall id secret,
         result (fetch_gcp_secret utf8_decode json_loads w) = Ok secret ->
         (absent (check_endpoint w "text_embedding" id) = true ->
          creates (trace (create_vertexai_embedding_inference_endpoint
                            utf8_decode json_loads c id w)) =
          [PutGoogleVertexAI id "text_embedding" (service_settings secret)])
         /\ (found (check_endpoint w "text_embedding" id) = true ->
             creates (trace (create_vertexai_embedding_inference_endpoint
                               utf8_decode json_loads c id w)) = []
             /\ result (create_vertexai_embedding_inference_endpoint
                          utf8_decode json_loads c id w) = Ok (Some id))).
Proof.
  assert (Hpipe : forall id d ps,
      (absent (check_pipeline w id) = true ->
       creates (trace (setup_ingest_pipeline c id d ps w)) = [PutPipeline id d ps])
      /\ (found (check_pipeline w id) = true ->
          creates (trace (setup_ingest_pipeline c id d ps w)) = []
          /\ result (setup_ingest_pipeline c id d ps w) = Ok (Some id))).
  { intros id d ps. rewrite setup_ingest_pipeline_eq.
    destruct (check_pipeline w id) as [p|e]; cbn [absent found].
    - split; [discriminate | intros _; split; reflexivity].
    - split; [|discriminate]. intros ->.
      destruct (put_pipeline_error w !! id); reflexivity. }
  split; [exact Hpipe|].
  split; [exact (proj1 (Hpipe _ _ _))|].
  split; [exact (proj1 (Hpipe _ _ _))|].
  intros id secret Hsecret.
  rewrite create_vertexai_embedding_inference_endpoint_eq, Hsecret.
  destruct (check_endpoint w "text_embedding" id) as [ep|e]; cbn [absent found].
  - split; [discriminate | intros _; split; reflexivity].
  - split; [|discriminate]. intros ->. reflexivity.
Qed.

(** C5. When the existence check fails with an error that is not the
    not-found signal, the ensure call raises that very error, issues no
    create call and leaves the cluster as it was. *)
Theorem existence_check_error_propagates (c : es_client_t) (w : world) :
  (forall id d ps e,
      check_pipeline w id = Raise e ->
      isinstance e NotFoundError = false ->
      result (setup_ingest_pipeline c id d ps w) = Raise e
      /\ creates (trace (setup_ingest_pipeline c id d ps w)) = []
      /\ final (setup_ingest_pipeline c id d ps w) = w)
  /\ (forall id secret e,
         result (fetch_gcp_secret utf8_decode json_loads w) = Ok secret ->
         check_endpoint w "text_embedding" id = Raise e ->
         isinstance e NotFoundError = false ->
         let r := create_vertexai_embedding_inference_endpoint
                    utf8_decode json_loads c id w in
         result r = Raise e /\ creates (trace r) = [] /\ final r = w).
Proof.
  split.
  - intros id d ps e Hcheck Hclass.
    rewrite setup_ingest_pipeline_eq, Hcheck, Hclass. repeat split.
  - intros id secret e Hsecret Hcheck Hclass. cbv zeta.
    rewrite create_vertexai_embedding_inference_endpoint_eq, Hsecret, Hcheck.
    cbv zeta. rewrite Hclass. repeat split.
Qed.

(** C6. When the existence check reports not-found and the create call
    fails with any error [e] (a rejection by the cluster or, for the
    inference endpoint, the refusal of the call by the client), the ensure
    call does not raise: it prints a line that carries the error and
    returns [None]. *)
Theorem create_error_becomes_None (c : es_client_t) (w : world) :
  (forall id d ps e,
      absent (check_pipeline w id) = true ->
      result (ingest_put_pipeline c id d ps w) = Raise e ->
      let r := setup_ingest_pipeline c id d ps w in
      result r = Ok None
      /\ last (trace r) =
         Some (Print ("Error creating ingest pipeline '" +:+ id +:+ "': " +:+ str e))
      /\ creates (trace r) = [PutPipeline id d ps])
  /\ (forall id secret e,
         result (fetch_gcp_secret utf8_decode json_loads w) = Ok secret ->
         absent (check_endpoint w "text_embedding" id) = true ->
         result (inference_put_googlevertexai c id "text_embedding" None
                   (service_settings secret) w) = Raise e ->
         let r := create_vertexai_embedding_inference_endpoint
                    utf8_decode json_loads c id w in
         result r = Ok None
         /\ last (trace r) =
            Some (Print ("Error creating inference endpoint '" +:+ id +:+ "': " +:+ str e))
         /\ creates (trace r) =
            [PutGoogleVertexAI id "text_embedding" (service_settings secret)]).
Proof.
  split.
  - intros id d ps e Habs Hput. cbv zeta.
    rewrite setup_ingest_pipeline_eq.
    destruct (check_pipeline w id) as [p|e0]; cbn [absent] in Habs;
      [discriminate|]. rewrite Habs.
    unfold ingest_put_pipeline in Hput.
    destruct (put_pipeline_error w !! id) as [e'|]; cbn [result] in Hput;
      [|discriminate].
    injection Hput as ->. repeat split.
  - intros id secret e Hsecret Habs Hput. cbv zeta.
    rewrite create_vertexai_embedding_inference_endpoint_eq, Hsecret.
    destruct (check_endpoint w "text_embedding" id) as [p|e0]; cbn [absent] in Habs;
      [discriminate|]. rewrite Habs.
    assert (He : e = missing_argument id).
    { revert Hput. unfold inference_put_googlevertexai, missing_argument.
      rewrite (bool_decide_eq_false_2 ("text_embedding" = EmptyString))
        by discriminate.
      destruct (bool_decide (id = EmptyString)); cbn [result];
        intros Hput; injection Hput as <-; reflexivity. }
    subst e. repeat split.
Qed.

(** ** The provisioning sequence, step by step *)

Lemma create_self_served_crawler_pipelines_eq c w :
  create_self_served_crawler_pipelines c w =
  match create_normalizer_pipeline c w with
  | Run (Raise e) w1 t1 => Run (Raise e) w1 t1
  | Run (Ok r1) w1 t1 =>
      if negb (truthy r1) then
        Run (Ok false) w1 (t1 ++ [Print "Failed to create normalizer pipeline."])
      else
        match create_embedding_pipeline c w1 with
        | Run (Raise e) w2 t2 => Run (Raise e) w2 (t1 ++ t2)
        | Run (Ok r2) w2 t2 =>
            if negb (truthy r2) then
              Run (Ok false) w2
                  (t1 ++ t2 ++ [Print "Failed to create embedding pipeline."])
            else
              match setup_ingest_pipeline c self_served_id self_served_description
                      [pipeline_ref "search-default-ingestion";
                       PDict [("pipeline", PDict [("name", pyval_of r1)])];
                       PDict [("pipeline", PDict [("name", pyval_of r2)])]] w2 with
              | Run (Raise e) w3 t3 => Run (Raise e) w3 (t1 ++ t2 ++ t3)
              | Run (Ok r3) w3 t3 =>
                  if negb (truthy r3) then
                    Run (Ok false) w3
                        (t1 ++ t2 ++ t3 ++
                         [Print "Failed to create self-served crawler pipeline."])
                  else Run (Ok true) w3 (t1 ++ t2 ++ t3 ++ [])
              end
        end
  end.
Proof.
  unfold create_self_served_crawler_pipelines, bind.
  destruct (create_normalizer_pipeline c w) as [[r1|e1] w1 t1]; [|reflexivity].
  unfold after at 1.
  destruct (negb (truthy r1)); [reflexivity|].
  destruct (create_embedding_pipeline c w1) as [[r2|e2] w2 t2]; [|reflexivity].
  unfold after at 1.
  destruct (negb (truthy r2)); [reflexivity|].
  fold self_served_id self_served_description.
  destruct (setup_ingest_pipeline c self_served_id self_served_description _ w2)
    as [[r3|e3] w3 t3]; [|reflexivity].
  unfold after at 1.
  destruct (negb (truthy r3)); reflexivity.
Qed.


Lemma setup_ingest_pipeline_run c id d ps w :
  ensure_run id d ps w (setup_ingest_pipeline c id d ps w).
Proof.
  rewrite setup_ingest_pipeline_eq.
  destruct (check_pipeline w id) as [p|e] eqn:Hcheck.
  - eapply ensure_found; eassumption.
  - destruct (isinstance e NotFoundError) eqn:Hclass.
    + destruct (put_pipeline_error w !! id) as [e'|] eqn:Hput.
      * eapply ensure_rejected; eassumption.
      * eapply ensure_created; eassumption.
    + eapply ensure_raised; eassumption.
Qed.

Lemma truthy_normalizer_id : truthy (Some normalizer_id) = true.
Proof. reflexivity. Qed.

Lemma truthy_embedding_id : truthy (Some embedding_id) = true.
Proof. reflexivity. Qed.

Lemma truthy_self_served_id : truthy (Some self_served_id) = true.
Proof. reflexivity. Qed.

(** Case analysis on the ensure call of pipeline [id] in the goal: the
    call is replaced everywhere by the run it yields. *)
Ltac ensure_cases_at c id d ps w :=
  let r := fresh "r" in
  let Heq := fresh "Heq" in
  let Hrun := fresh "Hrun" in
  pose proof (setup_ingest_pipeline_run c id d ps w) as Hrun;
  remember (setup_ingest_pipeline c id d ps w) as r eqn:Heq in *;
  clear Heq; inversion Hrun; subst r; clear Hrun.

Ltac ensure_cases c id :=
  cbn [result final trace] in *;
  match goal with
  | |- context [setup_ingest_pipeline c id ?d ?ps ?w] =>
      ensure_cases_at c id d ps w
  | _ : context [setup_ingest_pipeline c id ?d ?ps ?w] |- _ =>
      ensure_cases_at c id d ps w
  end;
  cbn [result final trace pyval_of] in *.

Ltac sequence_cases c w :=
  rewrite (create_self_served_crawler_pipelines_eq c w) in *;
  unfold create_normalizer_pipeline, create_embedding_pipeline in *;
  fold normalizer_id embedding_id in *;
  ensure_cases c normalizer_id;
  rewrite ?truthy_normalizer_id in *; cbn [truthy negb] in *;
  try (ensure_cases c embedding_id;
       rewrite ?truthy_embedding_id in *; cbn [truthy negb] in *;
       try (ensure_cases c self_served_id;
            rewrite ?truthy_self_served_id in *; cbn [truthy negb] in *)).

(** C7. The sequence is fail-fast: when the ensure call of the normalizer
    pipeline returns [None], the sequence returns [False] and issues no
    call at all about the embedding pipeline or the composite pipeline;
    when the normalizer is ensured and the ensure call of the embedding
    pipeline returns [None], the sequence returns [False] and issues no
    call about the composite pipeline. *)
Theorem sequence_is_fail_fast (c : es_client_t) (w : world) :
  (result (create_normalizer_pipeline c w) = Ok None ->
   result (create_self_served_crawler_pipelines c w) = Ok false
   /\ calls_for embedding_id (trace (create_self_served_crawler_pipelines c w)) = []
   /\ calls_for self_served_id (trace (create_self_served_crawler_pipelines c w)) = [])
  /\ (forall r1,
         result (create_normalizer_pipeline c w) = Ok r1 ->
         truthy r1 = true ->
         result (create_embedding_pipeline c (final (create_normalizer_pipeline c w)))
           = Ok None ->
         result (create_self_served_crawler_pipelines c w) = Ok false
         /\ calls_for self_served_id
              (trace (create_self_served_crawler_pipelines c w)) = []).
Proof.
  split.
  - intros Hfail. sequence_cases c w; try discriminate. repeat split.
  - intros r1 Hr1 Htruthy Hfail.
    sequence_cases c w; try discriminate; repeat split.
Qed.


(** Membership of an event in an explicit trace, one candidate at a time. *)
Ltac trace_cases H :=
  cbn [trace app In] in H;
  repeat match type of H with
         | _ \/ _ => destruct H as [H|H]
         end;
  try contradiction.

(** C9. Whenever the sequence issues the create call of the composite
    pipeline, its processors are exactly three by-name pipeline references:
    the default ingestion pipeline, the normalizer pipeline and the
    embedding pipeline, in this order. *)
Theorem composite_chains_three_pipelines (c : es_client_t) (w : world)
    (d : string) (ps : list pyval) :
  In (PutPipeline self_served_id d ps)
     (trace (create_self_served_crawler_pipelines c w)) ->
  ps = [pipeline_ref "search-default-ingestion";
        pipeline_ref normalizer_id;
        pipeline_ref embedding_id].
Proof.
  intros Hin.
  sequence_cases c w; trace_cases Hin; try discriminate Hin.
  all: try (unfold normalizer_id, embedding_id, self_served_id in Hin;
            discriminate Hin).
  all: injection Hin as _ <-; reflexivity.
Qed.

(** C10. An ensure call that returns, returns the identifier it was given
    or [None]; and every cluster call of the provisioning sequence is about
    one of the three fixed pipeline identifiers. *)
Theorem ensure_returns_its_id_or_None (c : es_client_t) (w : world) :
  (forall id d ps r,
      result (setup_ingest_pipeline c id d ps w) = Ok r ->
      r = Some id \/ r = None)
  /\ (forall id r,
         result (create_vertexai_embedding_inference_endpoint
                   utf8_decode json_loads c id w) = Ok r ->
         r = Some id \/ r = None)
  /\ (forall ev id,
         In ev (trace (create_self_served_crawler_pipelines c w)) ->
         resource_of ev = Some id ->
         In id [normalizer_id; embedding_id; self_served_id]).
Proof.
  split; [|split].
  - intros id d ps r.
    destruct (setup_ingest_pipeline_run c id d ps w); cbn [result];
      intros Hr; try discriminate Hr; injection Hr as <-; auto.
  - intros id r. rewrite create_vertexai_embedding_inference_endpoint_eq.
    destruct (result (fetch_gcp_secret utf8_decode json_loads w)) as [secret|e];
      [|discriminate].
    destruct (check_endpoint w "text_embedding" id) as [ep|e]; cbv zeta.
    + intros Hr; injection Hr as <-; auto.
    + destruct (isinstance e NotFoundError); [|discriminate].
      intros Hr; injection Hr as <-; auto.
  - intros ev id Hin Hres.
    sequence_cases c w; trace_cases Hin; subst ev; cbn [resource_of] in Hres;
      try discriminate Hres; injection Hres as <-; cbn [In]; auto.
Qed.


(** C8. The secret fetcher returns a string only when it is the decoded
    payload and [json.loads] accepts it; when [json.loads] raises on the
    decoded payload the fetcher raises (a [JSONDecodeError] becomes the
    exception "Secret is not a valid JSON string").  In the ensure call of
    the inference endpoint the secret is fetched first: the trace of the
    call begins with what the fetcher did, which holds no call to the
    cluster, and when the fetcher raises, the call raises the same
    exception, has issued no call to the cluster (neither the existence
    check nor the create call) and has changed nothing. *)
Theorem secret_is_validated_first (c : es_client_t) (id : string) (w : world) :
  (forall s,
      result (fetch_gcp_secret utf8_decode json_loads w) = Ok s ->
      found (json_loads s) = true
      /\ exists data,
           secret_payloads w !! secret_version = Some data
           /\ utf8_decode data = Ok s)
  /\ (forall data s e,
         credentials_error w = None ->
         secret_manager_down w = None ->
         secret_payloads w !! secret_version = Some data ->
         utf8_decode data = Ok s ->
         json_loads s = Raise e ->
         result (fetch_gcp_secret utf8_decode json_loads w) =
         Raise (if isinstance e JSONDecodeError
                then Exn Exception "Secret is not a valid JSON string"
                else e))
  /\ (forall e,
         result (fetch_gcp_secret utf8_decode json_loads w) = Raise e ->
         let r := create_vertexai_embedding_inference_endpoint
                    utf8_decode json_loads c id w in
         result r = Raise e
         /\ List.filter cluster_call (trace r) = []
         /\ final r = w)
  /\ (List.filter cluster_call
        (trace (fetch_gcp_secret utf8_decode json_loads w)) = []
      /\ exists rest,
           trace (create_vertexai_embedding_inference_endpoint
                    utf8_decode json_loads c id w) =
           (trace (fetch_gcp_secret utf8_decode json_loads w) ++ rest)%list).
Proof.
  assert (Hquiet : List.filter cluster_call
                     (trace (fetch_gcp_secret utf8_decode json_loads w)) = []).
  { rewrite fetch_gcp_secret_eq. destruct (credentials_error w); reflexivity. }
  split; [|split; [|split]].
  - intros s. rewrite fetch_gcp_secret_eq.
    destruct (credentials_error w); [discriminate|]. cbn [result].
    destruct (secret_manager_down w); [discriminate|].
    destruct (secret_payloads w !! secret_version) as [data|]; [|discriminate].
    destruct (utf8_decode data) as [text|e] eqn:Hdecode; [|discriminate].
    destruct (json_loads text) as [v|e] eqn:Hloads.
    + intros Hs; injection Hs as <-. rewrite Hloads. split; [reflexivity|].
      exists data. split; [reflexivity | assumption].
    + destruct (isinstance e JSONDecodeError); discriminate.
  - intros data s e Hcred Hup Hpayload Hdecode Hloads.
    rewrite fetch_gcp_secret_eq, Hcred. cbn [result].
    rewrite Hup, Hpayload, Hdecode, Hloads.
    destruct (isinstance e JSONDecodeError); reflexivity.
  - intros e Hfetch. cbv zeta.
    rewrite create_vertexai_embedding_inference_endpoint_eq, Hfetch.
    cbn [result final trace]. auto.
  - split; [exact Hquiet|].
    rewrite create_vertexai_embedding_inference_endpoint_eq.
    destruct (result (fetch_gcp_secret utf8_decode json_loads w))
      as [secret|e] eqn:Hfetch.
    2: { exists []. cbn [trace]. rewrite app_nil_r. reflexivity. }
    rewrite (fetch_gcp_secret_returned w secret Hfetch).
    destruct (check_endpoint w "text_embedding" id) as [ep|e];
      [eexists; reflexivity|].
    cbv zeta. destruct (isinstance e NotFoundError); eexists; reflexivity.
Qed.

(** ** The entry point *)

Lemma get_es_client_eq w :
  get_es_client w =
  match environ w !! "ES_HOST" with
  | None => Run (Raise (Exn KeyError "'ES_HOST'")) w []
  | Some host =>
      match environ w !! "ES_PORT" with
      | None => Run (Raise (Exn KeyError "'ES_PORT'")) w []
      | Some port =>
          match environ w !! "ES_API_KEY" with
          | None => Run (Raise (Exn KeyError "'ES_API_KEY'")) w []
          | Some key =>
              match client_config_error w !! (host +:+ ":" +:+ port) with
              | Some e => Run (Raise e) w []
              | None =>
                  if cluster_alive w
                  then Run (Ok (EsClient (host +:+ ":" +:+ port) key)) w [Ping]
                  else Run (Raise (Exn AssertionError
                                     "Elasticsearch cluster is not reachable"))
                           w [Ping]
              end
          end
      end
  end.
Proof.
  unfold get_es_client, bind, os_environ, after, Elasticsearch, es_ping, ret, raise.
  destruct (environ w !! "ES_HOST") as [host|]; [|reflexivity].
  destruct (environ w !! "ES_PORT") as [port|]; [|reflexivity].
  destruct (environ w !! "ES_API_KEY"); [|reflexivity].
  destruct (client_config_error w !! (host +:+ ":" +:+ port)); [reflexivity|].
  destruct (cluster_alive w); reflexivity.
Qed.

Lemma main_eq w :
  main w =
  match get_es_client w with
  | Run (Raise e) w1 t1 =>
      Run (Ok EndOfScript) w1
          (Print "Setting up self-served crawler pipelines..." :: t1 ++
           [Print ("An error occurred: " +:+ str e)])
  | Run (Ok es_client) w1 t1 =>
      match create_self_served_crawler_pipelines es_client w1 with
      | Run (Raise e) w2 t2 =>
          Run (Ok EndOfScript) w2
              (Print "Setting up self-served crawler pipelines..." :: (t1 ++ t2) ++
               [Print ("An error occurred: " +:+ str e)])
      | Run (Ok success) w2 t2 =>
          if success then
            Run (Ok (Exit 0)) w2
                (Print "Setting up self-served crawler pipelines..." :: (t1 ++ t2) ++
                 [Print "Self-served crawler pipelines have been set up successfully."])
          else
            Run (Ok (Exit 1)) w2
                (Print "Setting up self-served crawler pipelines..." :: (t1 ++ t2) ++
                 [Print "Failed to set up self-served crawler pipelines."])
      end
  end.
Proof.
  unfold main, try_except_else, bind, print, after, ret.
  destruct (get_es_client w) as [[es_client|e] w1 t1]; [|reflexivity].
  destruct (create_self_served_crawler_pipelines es_client w1)
    as [[success|e] w2 t2]; [|reflexivity].
  destruct success; reflexivity.
Qed.

(** The exit code, from what the [try] suite did: an exception leads to
    exit code 0, like a success. *)
Lemma exit_code_eq w :
  exit_code w =
  match get_es_client w with
  | Run (Raise _) _ _ => 0%Z
  | Run (Ok es_client) w1 _ =>
      match result (create_self_served_crawler_pipelines es_client w1) with
      | Ok true => 0%Z
      | Ok false => 1%Z
      | Raise _ => 0%Z
      end
  end.
Proof.
  unfold exit_code. rewrite main_eq.
  destruct (get_es_client w) as [[es_client|e] w1 t1]; [|reflexivity].
  destruct (create_self_served_crawler_pipelines es_client w1)
    as [[success|e] w2 t2]; [|reflexivity].
  destruct success; reflexivity.
Qed.


(** No run of the sequence, and so no run of the script, fetches the
    secret or calls the inference API. *)
Lemma sequence_never_provisions_endpoint c w :
  List.filter endpoint_call (trace (create_self_served_crawler_pipelines c w)) = [].
Proof. sequence_cases c w; reflexivity. Qed.

Lemma main_never_provisions_endpoint w :
  List.filter endpoint_call (trace (main w)) = [].
Proof.
  rewrite main_eq, get_es_client_eq.
  destruct (environ w !! "ES_HOST") as [host|]; [|reflexivity].
  destruct (environ w !! "ES_PORT") as [port|]; [|reflexivity].
  destruct (environ w !! "ES_API_KEY") as [key|]; [|reflexivity].
  destruct (client_config_error w !! (host +:+ ":" +:+ port)); [reflexivity|].
  destruct (cluster_alive w); [|reflexivity].
  pose proof (sequence_never_provisions_endpoint
                (EsClient (host +:+ ":" +:+ port) key) w) as Hseq.
  destruct (create_self_served_crawler_pipelines _ w) as [[[|]|e] w2 t2];
    cbn [trace] in *; cbn [List.filter endpoint_call app];
    rewrite List.filter_app, Hseq; reflexivity.
Qed.

(** C1 (the script departs from it).  With no [ES_HOST] in the environment
    the client factory raises [KeyError]; with an existence check that
    times out the sequence raises; in both runs the script prints the
    error and ends with exit code 0, where the claim asks for 1. *)
Theorem exit_code_after_exception :
  result (get_es_client world_without_environ) = Raise (Exn KeyError "'ES_HOST'")
  /\ trace (main world_without_environ) =
     [Print "Setting up self-served crawler pipelines...";
      Print "An error occurred: 'ES_HOST'"]
  /\ exit_code world_without_environ = 0%Z
  /\ result (create_self_served_crawler_pipelines example_client unreachable_world)
     = Raise (Exn ConnectionError "Connection timed out")
  /\ exit_code unreachable_world = 0%Z.
Proof. repeat split; vm_compute; reflexivity. Qed.

(** C2 (the script departs from it).  On a reachable cluster on which no
    resource exists, a run issues three create calls, for the normalizer,
    the embedding and the composite pipeline, and exits with code 0: the
    create call of the inference endpoint is not among them, and the
    inference endpoint is still absent at the end. *)
Theorem fresh_run_creates_three_pipelines :
  creates (trace (main fresh_world)) =
  [PutPipeline normalizer_id "Pipeline to normalize crawled data"
     [JOIN_HEADERS_PROCESSOR; SET_BODY_PROCESSOR; REMOVE_FIELDS_PROCESSOR;
      SET_DATES_PROCESSOR; SPLIT_URL_PROCESSOR; NORMALIZED_URL_PROCESSOR;
      REMOVE_TEMP_URL_PARTS_PROCESSOR];
   PutPipeline embedding_id "Pipeline to generate embeddings for crawled data"
     [VERTEXAI_EMBEDDINGS_PROCESSOR];
   PutPipeline self_served_id self_served_description
     [pipeline_ref "search-default-ingestion"; pipeline_ref normalizer_id;
      pipeline_ref embedding_id]]
  /\ exit_code fresh_world = 0%Z
  /\ List.filter endpoint_call (trace (main fresh_world)) = []
  /\ absent (check_endpoint (final (main fresh_world))
               "text_embedding" "vertexai_embeddings") = true.
Proof.
  split; [vm_compute; reflexivity|].
  split; [vm_compute; reflexivity|].
  split; [apply main_never_provisions_endpoint|].
  vm_compute; reflexivity.
Qed.


(** ** Running the sequence again *)

Lemma setup_ingest_pipeline_found c id d ps w :
  found (check_pipeline w id) = true ->
  setup_ingest_pipeline c id d ps w =
  Run (Ok (Some id)) w
      [GetPipeline id; Print ("Ingest pipeline '" +:+ id +:+ "' already exists.")].
Proof.
  intros Hfound. rewrite setup_ingest_pipeline_eq.
  destruct (check_pipeline w id); [reflexivity | discriminate].
Qed.

Lemma found_check_pipeline w id :
  found (check_pipeline w id) = true <->
  get_pipeline_failure w !! id = None /\ is_Some (pipelines w !! id).
Proof.
  unfold check_pipeline, existence.
  destruct (get_pipeline_failure w !! id) as [f|]; cbn [found].
  - split; [discriminate | intros [? _]; discriminate].
  - destruct (pipelines w !! id) as [p|]; cbn [found].
    + split; [eauto | reflexivity].
    + split; [discriminate | intros [_ [? ?]]; discriminate].
Qed.

Lemma absent_check_pipeline w id e :
  check_pipeline w id = Raise e ->
  isinstance e NotFoundError = true ->
  get_pipeline_failure w !! id = None /\ pipelines w !! id = None.
Proof.
  unfold check_pipeline, existence.
  destruct (get_pipeline_failure w !! id) as [f|].
  - intros Hcheck; injection Hcheck as <-.
    rewrite exn_of_failure_not_found. discriminate.
  - destruct (pipelines w !! id); [discriminate | auto].
Qed.

(** A successful ensure call leaves its pipeline found. *)
Lemma ensure_run_final_found id d ps w r x :
  ensure_run id d ps w r ->
  result r = Ok (Some x) ->
  found (check_pipeline (final r) id) = true.
Proof.
  intros Hrun. destruct Hrun as [p Hc|e Hc Hcls Hput|e e' Hc Hcls Hput|e Hc Hcls];
    cbn [result final]; intros Hres; try discriminate Hres.
  - rewrite Hc. reflexivity.
  - destruct (absent_check_pipeline _ _ _ Hc Hcls) as [Hfail _].
    apply found_check_pipeline. cbn [set_pipelines get_pipeline_failure pipelines].
    split; [assumption|]. rewrite lookup_insert_eq. eauto.
Qed.

(** An ensure call issues no create call for a pipeline that is found,
    and leaves that pipeline as it is stored and found. *)
Lemma ensure_run_keeps_found id d ps w r id' :
  ensure_run id d ps w r ->
  found (check_pipeline w id') = true ->
  found (check_pipeline (final r) id') = true
  /\ pipelines (final r) !! id' = pipelines w !! id'
  /\ creates (calls_for id' (trace r)) = [].
Proof.
  intros Hrun Hfound.
  assert (Hget : forall t, creates (calls_for id' (GetPipeline id :: Print t :: [])) = []).
  { intros t. unfold creates, calls_for. cbn [List.filter about resource_of].
    destruct (bool_decide (id = id')); reflexivity. }
  destruct Hrun as [p Hc|e Hc Hcls Hput|e e' Hc Hcls Hput|e Hc Hcls];
    cbn [result final trace].
  - auto.
  - destruct (absent_check_pipeline _ _ _ Hc Hcls) as [_ Hnone].
    assert (Hne : id <> id').
    { intros ->. apply found_check_pipeline in Hfound as [_ [p Hp]]. congruence. }
    split; [|split].
    + apply found_check_pipeline in Hfound as [Hfail Hsome].
      apply found_check_pipeline.
      cbn [set_pipelines get_pipeline_failure pipelines].
      rewrite lookup_insert_ne by assumption. auto.
    + cbn [set_pipelines pipelines]. apply lookup_insert_ne; assumption.
    + unfold creates, calls_for. cbn [List.filter about resource_of].
      rewrite !bool_decide_eq_false_2 by assumption. reflexivity.
  - assert (Hne : id <> id').
    { intros ->. rewrite Hc in Hfound. discriminate. }
    split; [assumption|]. split; [reflexivity|].
    unfold creates, calls_for. cbn [List.filter about resource_of].
    rewrite !bool_decide_eq_false_2 by assumption. reflexivity.
  - split; [assumption|]. split; [reflexivity|].
    unfold creates, calls_for. cbn [List.filter about resource_of].
    destruct (bool_decide (id = id')); reflexivity.
Qed.

Lemma creates_calls_for_app id t t' :
  creates (calls_for id (t ++ t')) =
  (creates (calls_for id t) ++ creates (calls_for id t'))%list.
Proof. unfold creates, calls_for. rewrite !List.filter_app. reflexivity. Qed.

Lemma truthy_Some r : truthy r = true -> exists x, r = Some x.
Proof. destruct r; [eauto | discriminate]. Qed.


(** After a successful run the three pipelines are found. *)
Lemma sequence_success_found c w :
  result (create_self_served_crawler_pipelines c w) = Ok true ->
  let w' := final (create_self_served_crawler_pipelines c w) in
  found (check_pipeline w' normalizer_id) = true
  /\ found (check_pipeline w' embedding_id) = true
  /\ found (check_pipeline w' self_served_id) = true.
Proof.
  cbv zeta. rewrite create_self_served_crawler_pipelines_eq.
  unfold create_normalizer_pipeline, create_embedding_pipeline.
  fold normalizer_id embedding_id.
  match goal with
  | |- context [setup_ingest_pipeline c normalizer_id ?d ?ps w] =>
      pose proof (setup_ingest_pipeline_run c normalizer_id d ps w) as R1;
      destruct (setup_ingest_pipeline c normalizer_id d ps w) as [[r1|e1] w1 t1]
  end; [|discriminate].
  destruct (truthy r1) eqn:T1; cbn [negb]; [|discriminate].
  apply truthy_Some in T1 as [x1 ->].
  match goal with
  | |- context [setup_ingest_pipeline c embedding_id ?d ?ps w1] =>
      pose proof (setup_ingest_pipeline_run c embedding_id d ps w1) as R2;
      destruct (setup_ingest_pipeline c embedding_id d ps w1) as [[r2|e2] w2 t2]
  end; [|discriminate].
  destruct (truthy r2) eqn:T2; cbn [negb]; [|discriminate].
  apply truthy_Some in T2 as [x2 ->].
  match goal with
  | |- context [setup_ingest_pipeline c self_served_id ?d ?ps w2] =>
      pose proof (setup_ingest_pipeline_run c self_served_id d ps w2) as R3;
      destruct (setup_ingest_pipeline c self_served_id d ps w2) as [[r3|e3] w3 t3]
  end; [|discriminate].
  destruct (truthy r3) eqn:T3; cbn [negb]; [|discriminate].
  apply truthy_Some in T3 as [x3 ->].
  intros _. cbn [final].
  pose proof (ensure_run_final_found _ _ _ _ _ _ R1 eq_refl) as F1.
  pose proof (ensure_run_final_found _ _ _ _ _ _ R2 eq_refl) as F2.
  pose proof (ensure_run_final_found _ _ _ _ _ _ R3 eq_refl) as F3.
  cbn [final] in F1, F2, F3.
  destruct (ensure_run_keeps_found _ _ _ _ _ normalizer_id R2 F1) as [F12 _].
  destruct (ensure_run_keeps_found _ _ _ _ _ normalizer_id R3 F12) as [F13 _].
  destruct (ensure_run_keeps_found _ _ _ _ _ embedding_id R3 F2) as [F23 _].
  auto.
Qed.

(** A run on a cluster where the three pipelines are found only checks. *)
Lemma sequence_when_all_found c w :
  found (check_pipeline w normalizer_id) = true ->
  found (check_pipeline w embedding_id) = true ->
  found (check_pipeline w self_served_id) = true ->
  create_self_served_crawler_pipelines c w =
  Run (Ok true) w
      [GetPipeline normalizer_id;
       Print ("Ingest pipeline '" +:+ normalizer_id +:+ "' already exists.");
       GetPipeline embedding_id;
       Print ("Ingest pipeline '" +:+ embedding_id +:+ "' already exists.");
       GetPipeline self_served_id;
       Print ("Ingest pipeline '" +:+ self_served_id +:+ "' already exists.")].
Proof.
  intros F1 F2 F3. rewrite create_self_served_crawler_pipelines_eq.
  unfold create_normalizer_pipeline, create_embedding_pipeline.
  fold normalizer_id embedding_id.
  rewrite (setup_ingest_pipeline_found c normalizer_id _ _ w F1).
  rewrite truthy_normalizer_id. cbn [negb].
  rewrite (setup_ingest_pipeline_found c embedding_id _ _ w F2).
  rewrite truthy_embedding_id. cbn [negb].
  rewrite (setup_ingest_pipeline_found c self_served_id _ _ w F3).
  rewrite truthy_self_served_id. reflexivity.
Qed.

(** No run issues a create call for a pipeline that was found when the
    run started, and that pipeline is stored unchanged at the end. *)
Lemma sequence_keeps_found c w id :
  found (check_pipeline w id) = true ->
  creates (calls_for id (trace (create_self_served_crawler_pipelines c w))) = []
  /\ pipelines (final (create_self_served_crawler_pipelines c w)) !! id
     = pipelines w !! id.
Proof.
  intros F0. rewrite create_self_served_crawler_pipelines_eq.
  unfold create_normalizer_pipeline, create_embedding_pipeline.
  fold normalizer_id embedding_id.
  match goal with
  | |- context [setup_ingest_pipeline c normalizer_id ?d ?ps w] =>
      pose proof (setup_ingest_pipeline_run c normalizer_id d ps w) as R1;
      destruct (setup_ingest_pipeline c normalizer_id d ps w) as [[r1|e1] w1 t1]
  end;
    destruct (ensure_run_keeps_found _ _ _ _ _ id R1 F0) as (F1 & P1 & C1);
    cbn [final trace] in F1, P1, C1; [|cbn [final trace]; auto].
  destruct (negb (truthy r1)).
  { cbn [final trace]. rewrite creates_calls_for_app, C1. auto. }
  match goal with
  | |- context [setup_ingest_pipeline c embedding_id ?d ?ps w1] =>
      pose proof (setup_ingest_pipeline_run c embedding_id d ps w1) as R2;
      destruct (setup_ingest_pipeline c embedding_id d ps w1) as [[r2|e2] w2 t2]
  end;
    destruct (ensure_run_keeps_found _ _ _ _ _ id R2 F1) as (F2 & P2 & C2);
    cbn [final trace] in F2, P2, C2;
    [|cbn [final trace]; rewrite creates_calls_for_app, C1, C2, P2; auto].
  destruct (negb (truthy r2)).
  { cbn [final trace]. rewrite !creates_calls_for_app, C1, C2, P2. auto. }
  match goal with
  | |- context [setup_ingest_pipeline c self_served_id ?d ?ps w2] =>
      pose proof (setup_ingest_pipeline_run c self_served_id d ps w2) as R3;
      destruct (setup_ingest_pipeline c self_served_id d ps w2) as [[r3|e3] w3 t3]
  end;
    destruct (ensure_run_keeps_found _ _ _ _ _ id R3 F2) as (F3 & P3 & C3);
    cbn [final trace] in F3, P3, C3;
    [|cbn [final trace]; rewrite !creates_calls_for_app, C1, C2, C3, P3, P2; auto].
  destruct (negb (truthy r3));
    cbn [final trace]; rewrite !creates_calls_for_app, C1, C2, C3, P3, P2; auto.
Qed.

(** C3, as amended.  Whenever a run of the sequence returns [True], a
    second run started where it ended issues no create call, returns
    [True] too and changes nothing.  And in every run, no create call is
    issued for a pipeline that is found when the run starts; that pipeline
    is stored unchanged when the run ends. *)
Theorem rerun_after_success_creates_nothing (c : es_client_t) (w : world) :
  (result (create_self_served_crawler_pipelines c w) = Ok true ->
   idempotent_from c w)
  /\ (forall id,
         found (check_pipeline w id) = true ->
         creates (calls_for id (trace (create_self_served_crawler_pipelines c w))) = []
         /\ pipelines (final (create_self_served_crawler_pipelines c w)) !! id
            = pipelines w !! id).
Proof.
  split.
  - intros Hsuccess. unfold idempotent_from. cbv zeta.
    destruct (sequence_success_found c w Hsuccess) as (F1 & F2 & F3).
    rewrite (sequence_when_all_found c _ F1 F2 F3), Hsuccess.
    repeat split.
  - intros id. apply sequence_keeps_found.
Qed.


(** ** The sequence as three ensure runs *)

Lemma pipeline_ids_distinct :
  normalizer_id <> embedding_id
  /\ normalizer_id <> self_served_id
  /\ embedding_id <> self_served_id.
Proof. repeat split; discriminate. Qed.

Lemma normalizer_step_run c w :
  ensure_run normalizer_id normalizer_description normalizer_processors w
    (normalizer_step c w).
Proof. apply setup_ingest_pipeline_run. Qed.

Lemma embedding_step_run c w :
  ensure_run embedding_id embedding_description embedding_processors
    (final (normalizer_step c w)) (embedding_step c w).
Proof. apply setup_ingest_pipeline_run. Qed.

Lemma self_served_step_run c w :
  ensure_run self_served_id self_served_description self_served_processors
    (final (embedding_step c w)) (self_served_step c w).
Proof. apply setup_ingest_pipeline_run. Qed.

Lemma sequence_by_steps c w :
  create_self_served_crawler_pipelines c w =
  match result (normalizer_step c w) with
  | Raise e => Run (Raise e) (final (normalizer_step c w)) (trace (normalizer_step c w))
  | Ok None =>
      Run (Ok false) (final (normalizer_step c w))
          (trace (normalizer_step c w) ++
           [Print "Failed to create normalizer pipeline."])
  | Ok (Some _) =>
      match result (embedding_step c w) with
      | Raise e =>
          Run (Raise e) (final (embedding_step c w))
              (trace (normalizer_step c w) ++ trace (embedding_step c w))
      | Ok None =>
          Run (Ok false) (final (embedding_step c w))
              (trace (normalizer_step c w) ++ trace (embedding_step c w) ++
               [Print "Failed to create embedding pipeline."])
      | Ok (Some _) =>
          match result (self_served_step c w) with
          | Raise e =>
              Run (Raise e) (final (self_served_step c w))
                  (trace (normalizer_step c w) ++ trace (embedding_step c w) ++
                   trace (self_served_step c w))
          | Ok None =>
              Run (Ok false) (final (self_served_step c w))
                  (trace (normalizer_step c w) ++ trace (embedding_step c w) ++
                   trace (self_served_step c w) ++
                   [Print "Failed to create self-served crawler pipeline."])
          | Ok (Some _) =>
              Run (Ok true) (final (self_served_step c w))
                  (trace (normalizer_step c w) ++ trace (embedding_step c w) ++
                   trace (self_served_step c w))
          end
      end
  end.
Proof.
  rewrite create_self_served_crawler_pipelines_eq.
  unfold self_served_step, embedding_step, normalizer_step,
    create_normalizer_pipeline, create_embedding_pipeline,
    self_served_processors, pipeline_ref.
  fold normalizer_id embedding_id.
  ensure_cases c normalizer_id;
    rewrite ?truthy_normalizer_id; cbn [truthy negb]; try reflexivity.
  all: ensure_cases c embedding_id;
    rewrite ?truthy_embedding_id; cbn [truthy negb]; try reflexivity.
  all: ensure_cases c self_served_id;
    rewrite ?truthy_self_served_id; cbn [truthy negb app];
    rewrite ?app_nil_r; reflexivity.
Qed.


(** ** What one ensure call changes *)

Lemma same_but_pipelines_refl w : same_but_pipelines w w.
Proof. unfold same_but_pipelines. destruct w; reflexivity. Qed.

Lemma same_but_pipelines_trans w1 w2 w3 :
  same_but_pipelines w1 w2 -> same_but_pipelines w2 w3 -> same_but_pipelines w1 w3.
Proof.
  unfold same_but_pipelines. intros H12 H23. rewrite H23, H12. reflexivity.
Qed.

Lemma same_but_pipelines_fields w w' :
  same_but_pipelines w w' ->
  environ w' = environ w
  /\ secret_manager_down w' = secret_manager_down w
  /\ secret_payloads w' = secret_payloads w
  /\ cluster_alive w' = cluster_alive w
  /\ endpoints w' = endpoints w
  /\ get_pipeline_failure w' = get_pipeline_failure w
  /\ put_pipeline_error w' = put_pipeline_error w
  /\ get_inference_failure w' = get_inference_failure w
  /\ put_inference_error w' = put_inference_error w.
Proof. unfold same_but_pipelines. intros ->. repeat split. Qed.

Lemma same_but_pipelines_check w w' id :
  same_but_pipelines w w' ->
  pipelines w' !! id = pipelines w !! id ->
  check_pipeline w' id = check_pipeline w id.
Proof.
  intros Hsame Hlookup.
  destruct (same_but_pipelines_fields _ _ Hsame) as (_ & _ & _ & _ & _ & Hf & _).
  unfold check_pipeline, existence. rewrite Hf, Hlookup. reflexivity.
Qed.

Lemma ensure_run_frame id d ps w r :
  ensure_run id d ps w r ->
  same_but_pipelines w (final r)
  /\ pipelines w ⊆ pipelines (final r)
  /\ (forall id', id' <> id -> pipelines (final r) !! id' = pipelines w !! id')
  /\ ((forall x, result r <> Ok (Some x)) -> final r = w).
Proof.
  intros Hrun.
  destruct Hrun as [p Hc|e Hc Hcls Hput|e e' Hc Hcls Hput|e Hc Hcls];
    cbn [result final].
  - split; [apply same_but_pipelines_refl|]. repeat split; auto.
  - destruct (absent_check_pipeline _ _ _ Hc Hcls) as [_ Hnone].
    split; [reflexivity|]. cbn [set_pipelines pipelines].
    split; [apply insert_subseteq; assumption|].
    split; [intros id' Hne; apply lookup_insert_ne; congruence|].
    intros Hnot. destruct (Hnot id). reflexivity.
  - split; [apply same_but_pipelines_refl|]. repeat split; auto.
  - split; [apply same_but_pipelines_refl|]. repeat split; auto.
Qed.

Lemma ensure_run_other_check id d ps w r id' :
  ensure_run id d ps w r ->
  id' <> id ->
  check_pipeline (final r) id' = check_pipeline w id'.
Proof.
  intros Hrun Hne.
  destruct (ensure_run_frame _ _ _ _ _ Hrun) as (Hsame & _ & Hother & _).
  apply same_but_pipelines_check; auto.
Qed.

(** On a cluster that accepts pipeline [id], the ensure call succeeds and
    issues the create call exactly if the pipeline is absent. *)
Lemma ensure_run_accepted id d ps w r :
  ensure_run id d ps w r ->
  accepts w id ->
  result r = Ok (Some id)
  /\ creates (trace r) = create_if_absent w id d ps.
Proof.
  intros Hrun [Hget Hput]. unfold create_if_absent.
  destruct Hrun as [p Hc|e Hc Hcls Hput'|e e' Hc Hcls Hput'|e Hc Hcls];
    cbn [result trace]; rewrite Hc; cbn [absent].
  - split; reflexivity.
  - rewrite Hcls. split; reflexivity.
  - congruence.
  - exfalso. revert Hc Hcls. unfold check_pipeline, existence. rewrite Hget.
    destruct (pipelines w !! id); [discriminate|].
    intros Hc; injection Hc as <-. discriminate.
Qed.

(** X1. An ensure call changes nothing but the pipeline of its own
    identifier: the inference endpoints are untouched, every stored
    pipeline is still stored with the same definition, and when the call
    does not return its identifier (it returns [None] or raises) the
    cluster is exactly as before. *)
Theorem ensure_changes_only_its_pipeline (c : es_client_t) (id d : string)
    (ps : list pyval) (w : world) :
  let r := setup_ingest_pipeline c id d ps w in
  endpoints (final r) = endpoints w
  /\ pipelines w ⊆ pipelines (final r)
  /\ (forall id', id' <> id -> pipelines (final r) !! id' = pipelines w !! id')
  /\ ((forall x, result r <> Ok (Some x)) -> final r = w).
Proof.
  cbv zeta.
  destruct (ensure_run_frame _ _ _ _ _ (setup_ingest_pipeline_run c id d ps w))
    as (Hsame & Hsub & Hother & Hfail).
  destruct (same_but_pipelines_fields _ _ Hsame) as (_ & _ & _ & _ & Hep & _).
  auto.
Qed.

(** X2. Once an ensure call has returned its identifier, the pipeline is
    found, and any later ensure call for that identifier, whatever
    definition it is given, only checks: it issues no create call, returns
    the identifier and leaves the stored definition as it is.  When the
    first call created the pipeline, what is stored is the definition it
    was given. *)
Theorem ensure_again_only_checks (c : es_client_t) (id d : string)
    (ps : list pyval) (w : world) :
  result (setup_ingest_pipeline c id d ps w) = Ok (Some id) ->
  let w1 := final (setup_ingest_pipeline c id d ps w) in
  (forall d' ps',
      setup_ingest_pipeline c id d' ps' w1 =
      Run (Ok (Some id)) w1
          [GetPipeline id;
           Print ("Ingest pipeline '" +:+ id +:+ "' already exists.")])
  /\ (absent (check_pipeline w id) = true ->
      pipelines w1 !! id = Some (Pipeline d ps)).
Proof.
  intros Hres. cbv zeta. split.
  - intros d' ps'. apply setup_ingest_pipeline_found.
    eapply ensure_run_final_found; [apply setup_ingest_pipeline_run | exact Hres].
  - revert Hres. rewrite setup_ingest_pipeline_eq.
    destruct (check_pipeline w id) as [p|e]; cbn [absent];
      [intros _ Habs; discriminate Habs|].
    intros Hres Habs. rewrite Habs in *. revert Hres.
    destruct (put_pipeline_error w !! id); cbn [result final]; [discriminate|].
    intros _. cbn [set_pipelines pipelines]. apply lookup_insert_eq.
Qed.


(** ** More about the sequence *)

Lemma setup_ingest_pipeline_created c id d ps w :
  absent (check_pipeline w id) = true ->
  put_pipeline_error w !! id = None ->
  setup_ingest_pipeline c id d ps w =
  Run (Ok (Some id))
      (set_pipelines w (<[id := Pipeline d ps]> (pipelines w)))
      [GetPipeline id; PutPipeline id d ps;
       Print ("Ingest pipeline '" +:+ id +:+ "' has been created.")].
Proof.
  intros Habs Hput. rewrite setup_ingest_pipeline_eq.
  destruct (check_pipeline w id) as [p|e]; cbn [absent] in Habs; [discriminate|].
  rewrite Habs, Hput. reflexivity.
Qed.

Lemma setup_ingest_pipeline_rejected c id d ps w e' :
  absent (check_pipeline w id) = true ->
  put_pipeline_error w !! id = Some e' ->
  setup_ingest_pipeline c id d ps w =
  Run (Ok None) w
      [GetPipeline id; PutPipeline id d ps;
       Print ("Error creating ingest pipeline '" +:+ id +:+ "': " +:+ str e')].
Proof.
  intros Habs Hput. rewrite setup_ingest_pipeline_eq.
  destruct (check_pipeline w id) as [p|e]; cbn [absent] in Habs; [discriminate|].
  rewrite Habs, Hput. reflexivity.
Qed.

Lemma creates_app t t' : creates (t ++ t') = (creates t ++ creates t')%list.
Proof. apply List.filter_app. Qed.

(** Where the three steps leave the cluster, relative to the start. *)
Lemma steps_frame c w :
  let w1 := final (normalizer_step c w) in
  let w2 := final (embedding_step c w) in
  let w3 := final (self_served_step c w) in
  (same_but_pipelines w w1 /\ same_but_pipelines w w2 /\ same_but_pipelines w w3)
  /\ (pipelines w ⊆ pipelines w1 /\ pipelines w ⊆ pipelines w2
      /\ pipelines w ⊆ pipelines w3)
  /\ (forall id,
         ~ In id [normalizer_id; embedding_id; self_served_id] ->
         pipelines w1 !! id = pipelines w !! id
         /\ pipelines w2 !! id = pipelines w !! id
         /\ pipelines w3 !! id = pipelines w !! id).
Proof.
  cbv zeta.
  destruct (ensure_run_frame _ _ _ _ _ (normalizer_step_run c w))
    as (S1 & I1 & O1 & _).
  destruct (ensure_run_frame _ _ _ _ _ (embedding_step_run c w))
    as (S2 & I2 & O2 & _).
  destruct (ensure_run_frame _ _ _ _ _ (self_served_step_run c w))
    as (S3 & I3 & O3 & _).
  pose proof (same_but_pipelines_trans _ _ _ S1 S2) as S12.
  pose proof (same_but_pipelines_trans _ _ _ S12 S3) as S13.
  split; [auto|]. split.
  - split; [assumption|]. split; [etrans; eassumption|].
    etrans; [eassumption|]. etrans; eassumption.
  - intros id Hout. cbn [In] in Hout.
    assert (id <> normalizer_id) as N1 by (intros ->; tauto).
    assert (id <> embedding_id) as N2 by (intros ->; tauto).
    assert (id <> self_served_id) as N3 by (intros ->; tauto).
    rewrite (O3 id N3), (O2 id N2), (O1 id N1). auto.
Qed.

Lemma sequence_frame (c : es_client_t) (w : world) :
  let w' := final (create_self_served_crawler_pipelines c w) in
  pipelines w ⊆ pipelines w'
  /\ endpoints w' = endpoints w
  /\ (forall id,
         ~ In id [normalizer_id; embedding_id; self_served_id] ->
         pipelines w' !! id = pipelines w !! id).
Proof.
  cbv zeta.
  destruct (steps_frame c w) as ((S1 & S2 & S3) & (I1 & I2 & I3) & Hout).
  destruct (same_but_pipelines_fields _ _ S1) as (_ & _ & _ & _ & E1 & _).
  destruct (same_but_pipelines_fields _ _ S2) as (_ & _ & _ & _ & E2 & _).
  destruct (same_but_pipelines_fields _ _ S3) as (_ & _ & _ & _ & E3 & _).
  rewrite sequence_by_steps.
  destruct (result (normalizer_step c w)) as [[x1|]|e1]; cbn [final];
    try (split; [assumption|]; split; [assumption|];
         intros id Hid; apply (Hout id Hid)).
  destruct (result (embedding_step c w)) as [[x2|]|e2]; cbn [final];
    try (split; [assumption|]; split; [assumption|];
         intros id Hid; apply (Hout id Hid)).
  destruct (result (self_served_step c w)) as [[x3|]|e3]; cbn [final];
    split; try assumption; split; try assumption;
    intros id Hid; apply (Hout id Hid).
Qed.

(** X4. Nothing is rolled back: when the normalizer pipeline is absent and
    its creation goes through, and the embedding pipeline is absent and its
    creation is rejected, the sequence returns [False] after two create
    calls, and the normalizer pipeline stays stored with its definition. *)
Theorem failed_run_keeps_what_it_created (c : es_client_t) (w : world) (e' : exn) :
  absent (check_pipeline w normalizer_id) = true ->
  put_pipeline_error w !! normalizer_id = None ->
  absent (check_pipeline w embedding_id) = true ->
  put_pipeline_error w !! embedding_id = Some e' ->
  let r := create_self_served_crawler_pipelines c w in
  result r = Ok false
  /\ creates (trace r) =
     [PutPipeline normalizer_id normalizer_description normalizer_processors;
      PutPipeline embedding_id embedding_description embedding_processors]
  /\ pipelines (final r) !! normalizer_id =
     Some (Pipeline normalizer_description normalizer_processors)
  /\ pipelines (final r) !! embedding_id = None.
Proof.
  intros A1 P1 A2 P2. cbv zeta.
  assert (Hstep1 : normalizer_step c w =
    Run (Ok (Some normalizer_id))
        (set_pipelines w
           (<[normalizer_id := Pipeline normalizer_description normalizer_processors]>
              (pipelines w)))
        [GetPipeline normalizer_id;
         PutPipeline normalizer_id normalizer_description normalizer_processors;
         Print ("Ingest pipeline '" +:+ normalizer_id +:+ "' has been created.")]).
  { apply setup_ingest_pipeline_created; assumption. }
  destruct pipeline_ids_distinct as (Hne & _ & _).
  assert (Hcheck2 : check_pipeline (final (normalizer_step c w)) embedding_id
                    = check_pipeline w embedding_id).
  { apply (ensure_run_other_check _ _ _ _ _ _ (normalizer_step_run c w)). congruence. }
  assert (Hstep2 : embedding_step c w =
    Run (Ok None) (final (normalizer_step c w))
        [GetPipeline embedding_id;
         PutPipeline embedding_id embedding_description embedding_processors;
         Print ("Error creating ingest pipeline '" +:+ embedding_id +:+ "': " +:+ str e')]).
  { apply setup_ingest_pipeline_rejected.
    - rewrite Hcheck2. assumption.
    - rewrite Hstep1. exact P2. }
  rewrite sequence_by_steps, Hstep2, Hstep1. cbn [result final trace].
  split; [reflexivity|]. split; [reflexivity|].
  cbn [set_pipelines pipelines]. split; [apply lookup_insert_eq|].
  rewrite lookup_insert_ne by assumption.
  revert A2. unfold check_pipeline, existence.
  destruct (get_pipeline_failure w !! embedding_id) as [f|].
  - cbn [absent]. rewrite exn_of_failure_not_found. discriminate.
  - destruct (pipelines w !! embedding_id); [discriminate | reflexivity].
Qed.

(** X5. When the sequence returns [True], the three pipelines are stored
    on the cluster. *)
Theorem success_means_all_three_stored (c : es_client_t) (w : world) :
  result (create_self_served_crawler_pipelines c w) = Ok true ->
  let w' := final (create_self_served_crawler_pipelines c w) in
  is_Some (pipelines w' !! normalizer_id)
  /\ is_Some (pipelines w' !! embedding_id)
  /\ is_Some (pipelines w' !! self_served_id).
Proof.
  intros Hsuccess. cbv zeta.
  destruct (sequence_success_found c w Hsuccess) as (F1 & F2 & F3).
  apply found_check_pipeline in F1 as [_ F1].
  apply found_check_pipeline in F2 as [_ F2].
  apply found_check_pipeline in F3 as [_ F3].
  auto.
Qed.

Lemma sequence_on_accepting_cluster (c : es_client_t) (w : world) :
  accepts w normalizer_id ->
  accepts w embedding_id ->
  accepts w self_served_id ->
  let r := create_self_served_crawler_pipelines c w in
  result r = Ok true
  /\ creates (trace r) =
     (create_if_absent w normalizer_id normalizer_description normalizer_processors
      ++ create_if_absent w embedding_id embedding_description embedding_processors
      ++ create_if_absent w self_served_id self_served_description
           self_served_processors)%list.
Proof.
  intros A1 A2 A3. cbv zeta.
  destruct pipeline_ids_distinct as (N12 & N13 & N23).
  destruct (steps_frame c w) as ((S1 & S2 & _) & _).
  pose proof (normalizer_step_run c w) as R1.
  pose proof (embedding_step_run c w) as R2.
  pose proof (self_served_step_run c w) as R3.
  destruct (ensure_run_accepted _ _ _ _ _ R1 A1) as [Q1 C1].
  assert (A2' : accepts (final (normalizer_step c w)) embedding_id).
  { destruct (same_but_pipelines_fields _ _ S1) as (_ & _ & _ & _ & _ & Hf & Hp & _).
    unfold accepts. rewrite Hf, Hp. exact A2. }
  destruct (ensure_run_accepted _ _ _ _ _ R2 A2') as [Q2 C2].
  assert (A3' : accepts (final (embedding_step c w)) self_served_id).
  { destruct (same_but_pipelines_fields _ _ S2) as (_ & _ & _ & _ & _ & Hf & Hp & _).
    unfold accepts. rewrite Hf, Hp. exact A3. }
  destruct (ensure_run_accepted _ _ _ _ _ R3 A3') as [Q3 C3].
  assert (K2 : check_pipeline (final (normalizer_step c w)) embedding_id
               = check_pipeline w embedding_id).
  { apply (ensure_run_other_check _ _ _ _ _ _ R1). congruence. }
  assert (K3 : check_pipeline (final (embedding_step c w)) self_served_id
               = check_pipeline w self_served_id).
  { rewrite (ensure_run_other_check _ _ _ _ _ _ R2) by congruence.
    apply (ensure_run_other_check _ _ _ _ _ _ R1). congruence. }
  unfold create_if_absent in *. rewrite K2 in C2. rewrite K3 in C3.
  rewrite sequence_by_steps, Q1, Q2, Q3. cbn [result trace].
  split; [reflexivity|].
  rewrite !creates_app, C1, C2, C3. reflexivity.
Qed.


(** X7. Every create call comes right after the existence check of the
    same resource: in one pipeline ensure call, in the ensure call of the
    inference endpoint and in a whole run of the sequence; and a run of the
    sequence issues at most three create calls. *)
Theorem creates_follow_their_check (c : es_client_t) (w : world) :
  (forall id d ps,
      checked_before_create None (trace (setup_ingest_pipeline c id d ps w)) = true)
  /\ (forall id,
         checked_before_create None
           (trace (create_vertexai_embedding_inference_endpoint
                     utf8_decode json_loads c id w)) = true)
  /\ checked_before_create None
       (trace (create_self_served_crawler_pipelines c w)) = true
  /\ length (creates (trace (create_self_served_crawler_pipelines c w))) <= 3.
Proof.
  split; [|split; [|split]].
  - intros id d ps.
    destruct (setup_ingest_pipeline_run c id d ps w); cbn [trace];
      cbn [checked_before_create andb];
      rewrite ?bool_decide_eq_true_2 by reflexivity; reflexivity.
  - intros id. rewrite create_vertexai_embedding_inference_endpoint_eq.
    destruct (result (fetch_gcp_secret utf8_decode json_loads w)) as [secret|e];
      [|cbn [trace]; destruct (fetch_gcp_secret_trace w) as [-> | ->];
        reflexivity].
    destruct (check_endpoint w "text_embedding" id) as [ep|e]; [reflexivity|].
    cbv zeta. destruct (isinstance e NotFoundError); [|reflexivity].
    cbn [trace]; cbn [checked_before_create andb];
      rewrite ?bool_decide_eq_true_2 by reflexivity; reflexivity.
  - sequence_cases c w; reflexivity.
  - sequence_cases c w; cbn; lia.
Qed.

(** X8. When the sequence returns [False], the cluster has rejected the
    creation of one of the three pipelines, and the last two lines printed
    are the error of that rejection and the message that names the
    pipeline. *)
Theorem failure_names_the_rejected_pipeline (c : es_client_t) (w : world) :
  result (create_self_served_crawler_pipelines c w) = Ok false ->
  exists name id e' front,
    In (name, id) [("normalizer", normalizer_id);
                   ("embedding", embedding_id);
                   ("self-served crawler", self_served_id)]
    /\ put_pipeline_error w !! id = Some e'
    /\ printed (trace (create_self_served_crawler_pipelines c w)) =
       (front ++
        ["Error creating ingest pipeline '" +:+ id +:+ "': " +:+ str e';
         "Failed to create " +:+ name +:+ " pipeline."])%list.
Proof.
  intros Hfalse. sequence_cases c w; try discriminate Hfalse.
  all: cbn [set_pipelines put_pipeline_error] in *.
  all: unfold printed; cbn [omap list_omap app].
  all: match goal with
       | H : put_pipeline_error _ !! ?id = Some ?e |- _ =>
           let name :=
             match id with
             | normalizer_id => constr:("normalizer")
             | embedding_id => constr:("embedding")
             | self_served_id => constr:("self-served crawler")
             end in
           exists name, id, e;
           first [ exists []; split; [cbn; tauto|]; split; [exact H | reflexivity]
                 | eexists [_]; split; [cbn; tauto|]; split; [exact H | reflexivity]
                 | eexists [_; _]; split; [cbn; tauto|]; split; [exact H | reflexivity] ]
       end.
Qed.


(** X6. On a cluster that neither fails the existence check nor rejects
    the creation of the three pipelines, the sequence returns [True], and
    its create calls are those of the pipelines that were absent at the
    start, each with its definition, in the order normalizer, embedding,
    composite. *)
Theorem accepting_cluster_creates_what_is_missing (c : es_client_t) (w : world) :
  accepts w normalizer_id ->
  accepts w embedding_id ->
  accepts w self_served_id ->
  let r := create_self_served_crawler_pipelines c w in
  result r = Ok true
  /\ creates (trace r) =
     (create_if_absent w normalizer_id normalizer_description normalizer_processors
      ++ create_if_absent w embedding_id embedding_description embedding_processors
      ++ create_if_absent w self_served_id self_served_description
           self_served_processors)%list.
Proof. apply sequence_on_accepting_cluster. Qed.

(** ** The client factory and the entry point *)

Lemma get_es_client_final w : final (get_es_client w) = w.
Proof.
  rewrite get_es_client_eq.
  destruct (environ w !! "ES_HOST") as [host|]; [|reflexivity].
  destruct (environ w !! "ES_PORT") as [port|]; [|reflexivity].
  destruct (environ w !! "ES_API_KEY"); [|reflexivity].
  destruct (client_config_error w !! (host +:+ ":" +:+ port)); [reflexivity|].
  destruct (cluster_alive w); reflexivity.
Qed.

(** X9. The client factory reads [ES_HOST], [ES_PORT] and [ES_API_KEY] in
    this order: when one is missing it raises [KeyError] for the first
    missing one, before any call to the cluster.  When none is missing and
    the Elasticsearch client refuses the hosts string [host:port], that
    refusal is raised, again before any call.  When the client is built and
    the ping fails, it raises [AssertionError] after that one ping. *)
Theorem get_es_client_failures (w : world) :
  (forall key,
      first_missing w = Some key ->
      get_es_client w = Run (Raise (Exn KeyError ("'" +:+ key +:+ "'"))) w [])
  /\ (forall host port e,
         environ w !! "ES_HOST" = Some host ->
         environ w !! "ES_PORT" = Some port ->
         first_missing w = None ->
         client_config_error w !! (host +:+ ":" +:+ port) = Some e ->
         get_es_client w = Run (Raise e) w [])
  /\ (forall host port,
         environ w !! "ES_HOST" = Some host ->
         environ w !! "ES_PORT" = Some port ->
         first_missing w = None ->
         client_config_error w !! (host +:+ ":" +:+ port) = None ->
         cluster_alive w = false ->
         get_es_client w =
         Run (Raise (Exn AssertionError "Elasticsearch cluster is not reachable"))
             w [Ping]).
Proof.
  rewrite get_es_client_eq. unfold first_missing. cbn [List.find].
  destruct (environ w !! "ES_HOST") as [h|].
  2: { split; [intros key Hk; injection Hk as <-; reflexivity|].
       split; intros; discriminate. }
  destruct (environ w !! "ES_PORT") as [p|].
  2: { split; [intros key Hk; injection Hk as <-; reflexivity|].
       split; intros; discriminate. }
  destruct (environ w !! "ES_API_KEY") as [k|].
  2: { split; [intros key Hk; injection Hk as <-; reflexivity|].
       split; intros; discriminate. }
  split; [discriminate|]. split.
  - intros host port e Hh Hp _ Hconfig.
    injection Hh as <-. injection Hp as <-. rewrite Hconfig. reflexivity.
  - intros host port Hh Hp _ Hconfig Halive.
    injection Hh as <-. injection Hp as <-. rewrite Hconfig, Halive. reflexivity.
Qed.

(** X10. The client factory returns a client exactly when the three
    variables are set, the Elasticsearch client accepts the hosts string
    [host:port] and the ping succeeds; the client is then built from
    [host:port] and the API key.  The factory never changes anything. *)
Theorem get_es_client_returns_iff (w : world) (client : es_client_t) :
  (result (get_es_client w) = Ok client <->
   exists host port key,
     environ w !! "ES_HOST" = Some host
     /\ environ w !! "ES_PORT" = Some port
     /\ environ w !! "ES_API_KEY" = Some key
     /\ client_config_error w !! (host +:+ ":" +:+ port) = None
     /\ cluster_alive w = true
     /\ client = EsClient (host +:+ ":" +:+ port) key)
  /\ final (get_es_client w) = w.
Proof.
  split; [|apply get_es_client_final].
  rewrite get_es_client_eq.
  destruct (environ w !! "ES_HOST") as [host|].
  2: { split; [discriminate | intros (? & ? & ? & ? & _); discriminate]. }
  destruct (environ w !! "ES_PORT") as [port|].
  2: { split; [discriminate | intros (? & ? & ? & _ & ? & _); discriminate]. }
  destruct (environ w !! "ES_API_KEY") as [key|].
  2: { split; [discriminate | intros (? & ? & ? & _ & _ & ? & _); discriminate]. }
  destruct (client_config_error w !! (host +:+ ":" +:+ port)) eqn:Hconfig.
  { split; [discriminate|].
    intros (h & p & k & Hh & Hp & _ & Hnone & _).
    injection Hh as <-. injection Hp as <-. congruence. }
  destruct (cluster_alive w); cbn [result].
  - split.
    + intros Hc; injection Hc as <-. exists host, port, key. auto 10.
    + intros (h & p & k & Hh & Hp & Hk & _ & _ & ->). congruence.
  - split; [discriminate|].
    intros (? & ? & ? & _ & _ & _ & _ & ? & _); discriminate.
Qed.

(** Where the script leaves the world: as it was when no client could be
    built, else where the sequence left it. *)
Lemma main_run w :
  (exists e, result (get_es_client w) = Raise e
             /\ final (main w) = w
             /\ trace (main w) =
                (Print "Setting up self-served crawler pipelines..."
                 :: trace (get_es_client w)
                 ++ [Print ("An error occurred: " +:+ str e)])%list)
  \/ (exists c, result (get_es_client w) = Ok c
                /\ trace (get_es_client w) = [Ping]
                /\ final (main w) = final (create_self_served_crawler_pipelines c w)
                /\ exists line,
                     trace (main w) =
                     (Print "Setting up self-served crawler pipelines..."
                      :: Ping
                      :: trace (create_self_served_crawler_pipelines c w)
                      ++ [Print line])%list
                     /\ line =
                        match result (create_self_served_crawler_pipelines c w) with
                        | Ok true =>
                            "Self-served crawler pipelines have been set up successfully."
                        | Ok false => "Failed to set up self-served crawler pipelines."
                        | Raise e => "An error occurred: " +:+ str e
                        end).
Proof.
  rewrite main_eq, get_es_client_eq.
  destruct (environ w !! "ES_HOST") as [host|];
    [|left; eexists; repeat split].
  destruct (environ w !! "ES_PORT") as [port|];
    [|left; eexists; repeat split].
  destruct (environ w !! "ES_API_KEY") as [key|];
    [|left; eexists; repeat split].
  destruct (client_config_error w !! (host +:+ ":" +:+ port));
    [left; eexists; repeat split|].
  destruct (cluster_alive w); [|left; eexists; repeat split].
  right. exists (EsClient (host +:+ ":" +:+ port) key). cbn [result trace].
  split; [reflexivity|]. split; [reflexivity|].
  destruct (create_self_served_crawler_pipelines _ w) as [[[|]|e] w2 t2];
    cbn [result final trace]; (split; [reflexivity|]); eexists; split; reflexivity.
Qed.

(** X11. The script never lets an exception escape; its exit code is 1
    exactly when a client was built and the sequence returned [False], and
    0 in every other run. *)
Theorem exit_code_is_1_exactly_on_False (w : world) :
  (exit_code w = 1%Z <->
   exists c, result (get_es_client w) = Ok c
             /\ result (create_self_served_crawler_pipelines c w) = Ok false)
  /\ (exit_code w = 0%Z \/ exit_code w = 1%Z)
  /\ (exists t, result (main w) = Ok t).
Proof.
  pose proof (get_es_client_final w) as Hfinal.
  unfold exit_code. rewrite main_eq.
  destruct (get_es_client w) as [[c|e] w1 t1]; cbn [final] in Hfinal; subst w1;
    cbn [result].
  2: { split; [|split; [left; reflexivity | eexists; reflexivity]].
       split; [discriminate | intros (c & Hc & _); discriminate]. }
  destruct (create_self_served_crawler_pipelines c w) as [[[|]|e] w2 t2] eqn:Hseq;
    cbn [result exit_status].
  - split; [|split; [left; reflexivity | eexists; reflexivity]].
    split; [discriminate|].
    intros (c' & Hc & Hres). injection Hc as <-. rewrite Hseq in Hres. discriminate.
  - split; [|split; [right; reflexivity | eexists; reflexivity]].
    split; [|reflexivity]. intros _. exists c. rewrite Hseq. auto.
  - split; [|split; [left; reflexivity | eexists; reflexivity]].
    split; [discriminate|].
    intros (c' & Hc & Hres). injection Hc as <-. rewrite Hseq in Hres. discriminate.
Qed.

(** X12. When the client factory raises, the script issues no pipeline or
    endpoint call, leaves everything as it was, and prints two lines: the
    banner and the error. *)
Theorem no_client_no_provisioning (w : world) (e : exn) :
  result (get_es_client w) = Raise e ->
  final (main w) = w
  /\ List.filter cluster_call (trace (main w)) = []
  /\ printed (trace (main w)) =
     ["Setting up self-served crawler pipelines...";
      "An error occurred: " +:+ str e].
Proof.
  rewrite main_eq, get_es_client_eq.
  destruct (environ w !! "ES_HOST") as [host|]; cbn [result];
    [|intros He; injection He as <-; repeat split].
  destruct (environ w !! "ES_PORT") as [port|]; cbn [result];
    [|intros He; injection He as <-; repeat split].
  destruct (environ w !! "ES_API_KEY") as [key|]; cbn [result];
    [|intros He; injection He as <-; repeat split].
  destruct (client_config_error w !! (host +:+ ":" +:+ port)); cbn [result];
    [intros He; injection He as <-; repeat split|].
  destruct (cluster_alive w); cbn [result]; [discriminate|].
  intros He; injection He as <-; repeat split.
Qed.


(** X3. No run of the sequence, and no run of the script, removes or
    alters a stored pipeline or touches the inference endpoints; the only
    pipelines a run can add are the three fixed ones. *)
Theorem runs_only_add_the_three_pipelines (w : world) :
  (forall c,
      let w' := final (create_self_served_crawler_pipelines c w) in
      pipelines w ⊆ pipelines w'
      /\ endpoints w' = endpoints w
      /\ (forall id,
             ~ In id [normalizer_id; embedding_id; self_served_id] ->
             pipelines w' !! id = pipelines w !! id))
  /\ (let w' := final (main w) in
      pipelines w ⊆ pipelines w'
      /\ endpoints w' = endpoints w
      /\ (forall id,
             ~ In id [normalizer_id; embedding_id; self_served_id] ->
             pipelines w' !! id = pipelines w !! id)).
Proof.
  split; [intros c; apply sequence_frame|]. cbv zeta.
  destruct (main_run w) as [(e & _ & -> & _) | (c & _ & _ & -> & _)].
  - repeat split; reflexivity.
  - apply sequence_frame.
Qed.

Lemma printed_app t t' : printed (t ++ t') = (printed t ++ printed t')%list.
Proof. apply omap_app. Qed.

(** X13. With the three variables set, a hosts string [host:port] that the
    Elasticsearch client accepts, a cluster that answers the ping and
    neither fails the existence check nor rejects the creation of the three
    pipelines, the script creates exactly the pipelines that are absent,
    prints the success line last, exits with code 0 and leaves the three
    pipelines stored. *)
Theorem accepting_cluster_run_exits_0 (w : world) (host port key : string) :
  environ w !! "ES_HOST" = Some host ->
  environ w !! "ES_PORT" = Some port ->
  environ w !! "ES_API_KEY" = Some key ->
  client_config_error w !! (host +:+ ":" +:+ port) = None ->
  cluster_alive w = true ->
  accepts w normalizer_id ->
  accepts w embedding_id ->
  accepts w self_served_id ->
  exit_code w = 0%Z
  /\ last (printed (trace (main w))) =
     Some "Self-served crawler pipelines have been set up successfully."
  /\ creates (trace (main w)) =
     (create_if_absent w normalizer_id normalizer_description normalizer_processors
      ++ create_if_absent w embedding_id embedding_description embedding_processors
      ++ create_if_absent w self_served_id self_served_description
           self_served_processors)%list
  /\ is_Some (pipelines (final (main w)) !! normalizer_id)
  /\ is_Some (pipelines (final (main w)) !! embedding_id)
  /\ is_Some (pipelines (final (main w)) !! self_served_id).
Proof.
  intros Hh Hp Hk Hconfig Ha A1 A2 A3.
  assert (Hclient : get_es_client w =
                    Run (Ok (EsClient (host +:+ ":" +:+ port) key)) w [Ping]).
  { rewrite get_es_client_eq, Hh, Hp, Hk, Hconfig, Ha. reflexivity. }
  set (c := EsClient (host +:+ ":" +:+ port) key) in *.
  destruct (sequence_on_accepting_cluster c w A1 A2 A3) as [Hres Hcreates].
  destruct (sequence_success_found c w Hres) as (F1 & F2 & F3).
  apply found_check_pipeline in F1 as [_ F1].
  apply found_check_pipeline in F2 as [_ F2].
  apply found_check_pipeline in F3 as [_ F3].
  rewrite exit_code_eq, main_eq, Hclient.
  destruct (create_self_served_crawler_pipelines c w) as [[[|]|e] w2 t2];
    cbn [result final trace] in *; try discriminate Hres.
  split; [reflexivity|].
  split.
  { change (Print "Setting up self-served crawler pipelines..." :: ([Ping] ++ t2) ++
            [Print "Self-served crawler pipelines have been set up successfully."])
      with ((Print "Setting up self-served crawler pipelines..." :: ([Ping] ++ t2)) ++
            [Print "Self-served crawler pipelines have been set up successfully."])%list.
    rewrite printed_app. apply last_snoc. }
  split; [|auto].
  rewrite <- Hcreates.
  change (Print "Setting up self-served crawler pipelines..." :: ([Ping] ++ t2) ++
          [Print "Self-served crawler pipelines have been set up successfully."])
    with ([Print "Setting up self-served crawler pipelines..."; Ping] ++ t2 ++
          [Print "Self-served crawler pipelines have been set up successfully."])%list.
  rewrite !creates_app. cbn [creates List.filter is_create app].
  apply app_nil_r.
Qed.

(** ** The secret fetcher and the inference endpoint *)

(** X14. The secret fetcher changes nothing.  It builds the secret manager
    client first: when that fails, the error is raised and no access is
    made.  Otherwise it asks the secret manager exactly once, for the latest
    version of the fixed secret; an error of that access, and an error of
    the decoding of the payload, are raised unchanged. *)
Theorem fetch_gcp_secret_single_access (w : world) :
  final (fetch_gcp_secret utf8_decode json_loads w) = w
  /\ (forall e,
         credentials_error w = Some e ->
         fetch_gcp_secret utf8_decode json_loads w = Run (Raise e) w [])
  /\ (credentials_error w = None ->
      trace (fetch_gcp_secret utf8_decode json_loads w) =
      [AccessSecretVersion
         "projects/rag-query-analytics/secrets/snippets-api-project-service-account-json/versions/latest"])
  /\ (forall e,
         credentials_error w = None ->
         result (access_secret_version secret_version w) = Raise e ->
         result (fetch_gcp_secret utf8_decode json_loads w) = Raise e)
  /\ (forall data e,
         credentials_error w = None ->
         result (access_secret_version secret_version w) = Ok data ->
         utf8_decode data = Raise e ->
         result (fetch_gcp_secret utf8_decode json_loads w) = Raise e).
Proof.
  rewrite fetch_gcp_secret_eq.
  destruct (credentials_error w) as [e0|].
  { split; [reflexivity|]. split; [intros e He; injection He as <-; reflexivity|].
    repeat split; intros; discriminate. }
  cbn [result final trace].
  split; [reflexivity|]. split; [discriminate|]. split; [reflexivity|].
  unfold access_secret_version. cbn [result].
  destruct (secret_manager_down w) as [e0|].
  { split; [intros e _ He; exact He | intros; discriminate]. }
  destruct (secret_payloads w !! secret_version) as [data0|].
  2: { split; [intros e _ He; exact He | intros; discriminate]. }
  split; [intros; discriminate|].
  intros data e _ Hd Hdecode. injection Hd as <-. rewrite Hdecode. reflexivity.
Qed.

(** X15. The ensure call of the inference endpoint never changes anything:
    its create call is made without the [service] argument, which the
    client refuses with [ValueError] before it sends a request.  So the
    call returns its identifier exactly when the secret is fetched and the
    endpoint is found; when the secret is fetched and the endpoint is
    absent, it prints that refusal and returns [None]. *)
Theorem endpoint_ensure_changes_nothing (c : es_client_t) (id : string)
    (w : world) :
  let r := create_vertexai_embedding_inference_endpoint
             utf8_decode json_loads c id w in
  final r = w
  /\ (result r = Ok (Some id) <->
      (exists secret,
          result (fetch_gcp_secret utf8_decode json_loads w) = Ok secret)
      /\ found (check_endpoint w "text_embedding" id) = true)
  /\ (forall secret,
         result (fetch_gcp_secret utf8_decode json_loads w) = Ok secret ->
         absent (check_endpoint w "text_embedding" id) = true ->
         result r = Ok None
         /\ class_of (missing_argument id) = ValueError
         /\ last (trace r) =
            Some (Print ("Error creating inference endpoint '" +:+ id +:+ "': "
                         +:+ str (missing_argument id)))).
Proof.
  cbv zeta.
  assert (Hclass : class_of (missing_argument id) = ValueError).
  { unfold missing_argument. destruct (bool_decide (id = EmptyString)); reflexivity. }
  rewrite (create_vertexai_embedding_inference_endpoint_eq c id w).
  destruct (result (fetch_gcp_secret utf8_decode json_loads w))
    as [secret|e0]; cbn [result final].
  2: { split; [reflexivity|]. split; [|intros secret Hs; discriminate Hs].
       split; [discriminate | intros [[secret Hs] _]; discriminate Hs]. }
  destruct (check_endpoint w "text_embedding" id) as [ep|e];
    cbn [result final found absent].
  { split; [reflexivity|]. split; [|intros secret' _ Habs; discriminate Habs].
    split; [eauto | reflexivity]. }
  cbv zeta. destruct (isinstance e NotFoundError); cbn [result final trace].
  - split; [reflexivity|]. split.
    + split; [discriminate | intros [_ Hfound]; discriminate Hfound].
    + intros secret' _ _. split; [reflexivity|]. split; [exact Hclass|reflexivity].
  - split; [reflexivity|]. split.
    + split; [discriminate | intros [_ Hfound]; discriminate Hfound].
    + intros secret' _ Habs. discriminate Habs.
Qed.

(** ** When exactly a second run is quiet *)

Lemma ensure_run_not_returned id d ps w r :
  ensure_run id d ps w r ->
  (forall e, result r = Raise e -> final r = w /\ creates (trace r) = [])
  /\ (result r = Ok None ->
      final r = w /\ creates (trace r) = [PutPipeline id d ps]).
Proof.
  intros Hrun.
  destruct Hrun as [p Hc|e Hc Hcls Hput|e e' Hc Hcls Hput|e Hc Hcls];
    cbn [result final trace]; split; try discriminate; auto.
Qed.

Lemma ensure_run_returned id d ps w r x :
  ensure_run id d ps w r -> result r = Ok (Some x) -> x = id.
Proof.
  intros Hrun.
  destruct Hrun; cbn [result]; intros Hres; try discriminate Hres;
    injection Hres as <-; reflexivity.
Qed.

Lemma steps_when_normalizer_found c w :
  found (check_pipeline w normalizer_id) = true ->
  normalizer_step c w =
  Run (Ok (Some normalizer_id)) w
      [GetPipeline normalizer_id;
       Print ("Ingest pipeline '" +:+ normalizer_id +:+ "' already exists.")]
  /\ embedding_step c w = create_embedding_pipeline c w.
Proof.
  intros F1.
  assert (H1 : normalizer_step c w =
               Run (Ok (Some normalizer_id)) w
                   [GetPipeline normalizer_id;
                    Print ("Ingest pipeline '" +:+ normalizer_id +:+ "' already exists.")]).
  { apply setup_ingest_pipeline_found. exact F1. }
  split; [exact H1|]. unfold embedding_step. rewrite H1. reflexivity.
Qed.

Lemma steps_when_two_found c w :
  found (check_pipeline w normalizer_id) = true ->
  found (check_pipeline w embedding_id) = true ->
  embedding_step c w =
  Run (Ok (Some embedding_id)) w
      [GetPipeline embedding_id;
       Print ("Ingest pipeline '" +:+ embedding_id +:+ "' already exists.")]
  /\ self_served_step c w =
     setup_ingest_pipeline c self_served_id self_served_description
       self_served_processors w.
Proof.
  intros F1 F2. destruct (steps_when_normalizer_found c w F1) as [_ H2].
  assert (H2' : embedding_step c w =
                Run (Ok (Some embedding_id)) w
                    [GetPipeline embedding_id;
                     Print ("Ingest pipeline '" +:+ embedding_id +:+ "' already exists.")]).
  { rewrite H2. apply setup_ingest_pipeline_found. exact F2. }
  split; [exact H2'|]. unfold self_served_step. rewrite H2'. reflexivity.
Qed.

(** X16. The sequence is idempotent from a world exactly when its run from
    that world does not return [False]: after a run that returned [True] or
    raised, a second run issues no create call, ends the same way and
    changes nothing; after a run that returned [False], the second run
    issues the rejected create call again. *)
Theorem idempotent_exactly_without_rejection (c : es_client_t) (w : world) :
  idempotent_from c w <->
  result (create_self_served_crawler_pipelines c w) <> Ok false.
Proof.
  unfold idempotent_from. cbv zeta.
  pose proof (normalizer_step_run c w) as R1.
  pose proof (embedding_step_run c w) as R2.
  pose proof (self_served_step_run c w) as R3.
  destruct (ensure_run_not_returned _ _ _ _ _ R1) as [Raise1 None1].
  destruct (ensure_run_not_returned _ _ _ _ _ R2) as [Raise2 None2].
  destruct (ensure_run_not_returned _ _ _ _ _ R3) as [Raise3 None3].
  destruct (result (create_self_served_crawler_pipelines c w))
    as [[|]|e] eqn:Hfirst.
  - (* the first run returned True *)
    split; [discriminate|]. intros _.
    destruct (sequence_success_found c w Hfirst) as (F1 & F2 & F3).
    rewrite (sequence_when_all_found c _ F1 F2 F3). repeat split.
  - (* the first run returned False: the rejected create call comes again *)
    split; [|intros Hne; destruct (Hne eq_refl)].
    intros [Hcreates _]. exfalso. revert Hcreates Hfirst.
    rewrite (sequence_by_steps c w).
    destruct (result (normalizer_step c w)) as [[x1|]|e1] eqn:Q1;
      cbn [result final]; try discriminate.
    2: { destruct (None1 eq_refl) as [-> C1]. intros Hcreates _. revert Hcreates.
         rewrite (sequence_by_steps c w), Q1. cbn [trace].
         rewrite creates_app, C1. discriminate. }
    pose proof (ensure_run_final_found _ _ _ _ _ _ R1 Q1) as F1.
    destruct (steps_when_normalizer_found c _ F1) as [N1 E1].
    destruct (result (embedding_step c w)) as [[x2|]|e2] eqn:Q2;
      cbn [result final]; try discriminate.
    2: { destruct (None2 eq_refl) as [W2 C2]. rewrite W2.
         intros Hcreates _. revert Hcreates.
         rewrite (sequence_by_steps c (final (normalizer_step c w))), N1, E1.
         cbn [result]. fold (embedding_step c w). rewrite Q2. cbn [trace].
         rewrite !creates_app, C2. discriminate. }
    pose proof (ensure_run_final_found _ _ _ _ _ _ R2 Q2) as F2.
    destruct (ensure_run_keeps_found _ _ _ _ _ normalizer_id R2 F1) as (F12 & _).
    destruct (steps_when_normalizer_found c _ F12) as [N2 _].
    destruct (steps_when_two_found c _ F12 F2) as [E2 S2].
    destruct (result (self_served_step c w)) as [[x3|]|e3] eqn:Q3;
      cbn [result final]; try discriminate.
    destruct (None3 eq_refl) as [W3 C3]. rewrite W3.
    intros Hcreates _. revert Hcreates.
    rewrite (sequence_by_steps c (final (embedding_step c w))), N2, E2, S2.
    cbn [result]. fold (self_served_step c w). rewrite Q3. cbn [trace].
    rewrite !creates_app, C3. discriminate.
  - (* the first run raised: the second one raises at the same check *)
    split; [discriminate|]. intros _. revert Hfirst.
    rewrite (sequence_by_steps c w).
    destruct (result (normalizer_step c w)) as [[x1|]|e1] eqn:Q1;
      cbn [result final]; try discriminate.
    2: { intros He; injection He as <-. destruct (Raise1 _ eq_refl) as [-> C1].
         rewrite (sequence_by_steps c w), Q1. cbn [result final trace].
         destruct (Raise1 _ eq_refl) as [W1 _]. rewrite W1. auto. }
    pose proof (ensure_run_final_found _ _ _ _ _ _ R1 Q1) as F1.
    destruct (steps_when_normalizer_found c _ F1) as [N1 E1].
    destruct (result (embedding_step c w)) as [[x2|]|e2] eqn:Q2;
      cbn [result final]; try discriminate.
    2: { intros He; injection He as <-. destruct (Raise2 _ eq_refl) as [W2 C2].
         rewrite W2.
         rewrite (sequence_by_steps c (final (normalizer_step c w))), N1, E1.
         cbn [result]. fold (embedding_step c w). rewrite Q2.
         cbn [result final trace]. rewrite W2, !creates_app, C2. auto. }
    pose proof (ensure_run_final_found _ _ _ _ _ _ R2 Q2) as F2.
    destruct (ensure_run_keeps_found _ _ _ _ _ normalizer_id R2 F1) as (F12 & _).
    destruct (steps_when_normalizer_found c _ F12) as [N2 _].
    destruct (steps_when_two_found c _ F12 F2) as [E2 S2].
    destruct (result (self_served_step c w)) as [[x3|]|e3] eqn:Q3;
      cbn [result final]; try discriminate.
    intros He; injection He as <-. destruct (Raise3 _ eq_refl) as [W3 C3].
    rewrite W3.
    rewrite (sequence_by_steps c (final (embedding_step c w))), N2, E2, S2.
    cbn [result]. fold (self_served_step c w). rewrite Q3.
    cbn [result final trace]. rewrite W3, !creates_app, C3. auto.
Qed.

End Facts.

(** * The claims on the example worlds *)

(** C3, as stated, fails on a cluster that rejects the creation of the
    normalizer pipeline: the first run returns [False], and the second run
    issues the create call again. *)
Lemma rerun_retries_rejected_create :
  result (create_self_served_crawler_pipelines example_client rejecting_world)
  = Ok false
  /\ creates (trace (create_self_served_crawler_pipelines example_client
                       (final (create_self_served_crawler_pipelines
                                 example_client rejecting_world))))
     = [PutPipeline normalizer_id "Pipeline to normalize crawled data"
          [JOIN_HEADERS_PROCESSOR; SET_BODY_PROCESSOR; REMOVE_FIELDS_PROCESSOR;
           SET_DATES_PROCESSOR; SPLIT_URL_PROCESSOR; NORMALIZED_URL_PROCESSOR;
           REMOVE_TEMP_URL_PARTS_PROCESSOR]]
  /\ ~ idempotent_from example_client rejecting_world.
Proof.
  split; [vm_compute; reflexivity|].
  split; [vm_compute; reflexivity|].
  intros [Hcreates _]. vm_compute in Hcreates. discriminate Hcreates.
Qed.

Lemma rerun_after_success_creates_nothing_witness :
  idempotent_from example_client fresh_world
  /\ creates (calls_for normalizer_id
                (trace (create_self_served_crawler_pipelines
                          example_client provisioned_world))) = []
  /\ pipelines (final (create_self_served_crawler_pipelines
                         example_client provisioned_world)) !! normalizer_id
     = Some (Pipeline "installed by hand" []).
Proof.
  split.
  - apply (proj1 (rerun_after_success_creates_nothing example_client fresh_world)).
    vm_compute; reflexivity.
  - destruct (proj2 (rerun_after_success_creates_nothing
                       example_client provisioned_world) normalizer_id)
      as [Hcreates Hstored].
    + vm_compute; reflexivity.
    + split; [exact Hcreates|]. rewrite Hstored. vm_compute; reflexivity.
Defined.

Lemma ensure_creates_exactly_when_absent_witness :
  creates (trace (setup_ingest_pipeline example_client self_served_id
                    self_served_description [] fresh_world))
  = [PutPipeline self_served_id self_served_description []]
  /\ result (setup_ingest_pipeline example_client normalizer_id
               "Pipeline to normalize crawled data" [] provisioned_world)
     = Ok (Some normalizer_id)
  /\ creates (trace (create_vertexai_embedding_inference_endpoint
                       example_utf8_decode example_json_loads
                       example_client "vertexai_embeddings" fresh_world))
     = [PutGoogleVertexAI "vertexai_embeddings" "text_embedding"
          (service_settings "{}")]
  /\ creates (trace (create_vertexai_embedding_inference_endpoint
                       example_utf8_decode example_json_loads
                       example_client "vertexai_embeddings" provisioned_world))
     = [].
Proof.
  split; [|split; [|split]].
  - apply (proj1 (ensure_creates_exactly_when_absent
                    example_utf8_decode example_json_loads
                    example_client fresh_world)).
    vm_compute; reflexivity.
  - apply (proj1 (ensure_creates_exactly_when_absent
                    example_utf8_decode example_json_loads
                    example_client provisioned_world)).
    vm_compute; reflexivity.
  - apply (proj2 (proj2 (proj2 (ensure_creates_exactly_when_absent
                                  example_utf8_decode example_json_loads
                                  example_client fresh_world)))).
    + vm_compute; reflexivity.
    + vm_compute; reflexivity.
  - apply (proj2 (proj2 (proj2 (ensure_creates_exactly_when_absent
                                  example_utf8_decode example_json_loads
                                  example_client provisioned_world)))
             "vertexai_embeddings" "{}").
    + vm_compute; reflexivity.
    + vm_compute; reflexivity.
Defined.

Lemma existence_check_error_propagates_witness :
  result (setup_ingest_pipeline example_client normalizer_id
            "Pipeline to normalize crawled data" [] unreachable_world)
  = Raise timed_out
  /\ creates (trace (create_vertexai_embedding_inference_endpoint
                       example_utf8_decode example_json_loads
                       example_client "vertexai_embeddings" unreachable_world))
     = [].
Proof.
  split.
  - apply (proj1 (existence_check_error_propagates
                    example_utf8_decode example_json_loads
                    example_client unreachable_world)).
    + vm_compute; reflexivity.
    + vm_compute; reflexivity.
  - apply (proj2 (existence_check_error_propagates
                    example_utf8_decode example_json_loads
                    example_client unreachable_world)
             "vertexai_embeddings" "{}" timed_out).
    + vm_compute; reflexivity.
    + vm_compute; reflexivity.
    + vm_compute; reflexivity.
Defined.

Lemma create_error_becomes_None_witness :
  result (setup_ingest_pipeline example_client normalizer_id
            "Pipeline to normalize crawled data" [] rejecting_world)
  = Ok None
  /\ result (create_vertexai_embedding_inference_endpoint
               example_utf8_decode example_json_loads
               example_client "vertexai_embeddings" rejecting_world)
     = Ok None.
Proof.
  split.
  - apply (proj1 (create_error_becomes_None
                    example_utf8_decode example_json_loads
                    example_client rejecting_world)
             normalizer_id "Pipeline to normalize crawled data" [] bad_request).
    + vm_compute; reflexivity.
    + vm_compute; reflexivity.
  - apply (proj2 (create_error_becomes_None
                    example_utf8_decode example_json_loads
                    example_client rejecting_world)
             "vertexai_embeddings" "{}"
             (Exn ValueError "Empty value passed for parameter 'service'")).
    + vm_compute; reflexivity.
    + vm_compute; reflexivity.
    + vm_compute; reflexivity.
Defined.

Lemma sequence_is_fail_fast_witness :
  calls_for embedding_id
    (trace (create_self_served_crawler_pipelines example_client rejecting_world))
  = []
  /\ calls_for self_served_id
       (trace (create_self_served_crawler_pipelines
                 example_client embedding_rejecting_world))
     = [].
Proof.
  split.
  - apply (proj1 (sequence_is_fail_fast example_client rejecting_world)).
    vm_compute; reflexivity.
  - apply (proj2 (sequence_is_fail_fast example_client embedding_rejecting_world)
             (Some normalizer_id)).
    + vm_compute; reflexivity.
    + vm_compute; reflexivity.
    + vm_compute; reflexivity.
Defined.

Lemma secret_is_validated_first_witness :
  found (example_json_loads "{}") = true
  /\ result (fetch_gcp_secret example_utf8_decode example_json_loads
               world_with_bad_secret)
     = Raise (Exn Exception "Secret is not a valid JSON string")
  /\ List.filter cluster_call
       (trace (create_vertexai_embedding_inference_endpoint
                 example_utf8_decode example_json_loads
                 example_client "vertexai_embeddings" world_with_bad_secret))
     = []
  /\ result (create_vertexai_embedding_inference_endpoint
               example_utf8_decode example_json_loads
               example_client "vertexai_embeddings" world_without_credentials)
     = Raise no_credentials.
Proof.
  split; [|split; [|split]].
  - apply (proj1 (secret_is_validated_first
                    example_utf8_decode example_json_loads
                    example_client "vertexai_embeddings" fresh_world) "{}").
    vm_compute; reflexivity.
  - apply (proj1 (proj2 (secret_is_validated_first
                           example_utf8_decode example_json_loads
                           example_client "vertexai_embeddings"
                           world_with_bad_secret))
             "not json" "not json"
             (Exn JSONDecodeError "Expecting value: line 1 column 1 (char 0)")).
    + vm_compute; reflexivity.
    + vm_compute; reflexivity.
    + vm_compute; reflexivity.
    + vm_compute; reflexivity.
    + vm_compute; reflexivity.
  - apply (proj1 (proj2 (proj2 (secret_is_validated_first
                                  example_utf8_decode example_json_loads
                                  example_client "vertexai_embeddings"
                                  world_with_bad_secret)))
             (Exn Exception "Secret is not a valid JSON string")).
    vm_compute; reflexivity.
  - apply (proj1 (proj2 (proj2 (secret_is_validated_first
                                  example_utf8_decode example_json_loads
                                  example_client "vertexai_embeddings"
                                  world_without_credentials)))
             no_credentials).
    vm_compute; reflexivity.
Defined.

Lemma composite_chains_three_pipelines_witness :
  In (PutPipeline self_served_id self_served_description
        [pipeline_ref "search-default-ingestion";
         PDict [("pipeline", PDict [("name", PStr "es-crawler-normalizer-pipeline")])];
         PDict [("pipeline", PDict [("name", PStr "es-crawler-embedding-pipeline")])]])
     (trace (create_self_served_crawler_pipelines example_client fresh_world))
  /\ [pipeline_ref "search-default-ingestion";
      PDict [("pipeline", PDict [("name", PStr "es-crawler-normalizer-pipeline")])];
      PDict [("pipeline", PDict [("name", PStr "es-crawler-embedding-pipeline")])]]
     = [pipeline_ref "search-default-ingestion";
        pipeline_ref normalizer_id;
        pipeline_ref embedding_id].
Proof.
  assert (Hin :
    In (PutPipeline self_served_id self_served_description
          [pipeline_ref "search-default-ingestion";
           PDict [("pipeline", PDict [("name", PStr "es-crawler-normalizer-pipeline")])];
           PDict [("pipeline", PDict [("name", PStr "es-crawler-embedding-pipeline")])]])
       (trace (create_self_served_crawler_pipelines example_client fresh_world))).
  { vm_compute. do 7 right. left. reflexivity. }
  split; [exact Hin|].
  exact (composite_chains_three_pipelines example_client fresh_world _ _ Hin).
Defined.

Lemma ensure_returns_its_id_or_None_witness :
  (Some normalizer_id = Some normalizer_id \/ Some normalizer_id = None)
  /\ ((None : option string) = Some "vertexai_embeddings" \/ (None : option string) = None)
  /\ In embedding_id [normalizer_id; embedding_id; self_served_id].
Proof.
  split; [|split].
  - apply (proj1 (ensure_returns_its_id_or_None
                    example_utf8_decode example_json_loads
                    example_client fresh_world)
             normalizer_id "Pipeline to normalize crawled data" []).
    vm_compute; reflexivity.
  - apply (proj1 (proj2 (ensure_returns_its_id_or_None
                           example_utf8_decode example_json_loads
                           example_client rejecting_world))
             "vertexai_embeddings").
    vm_compute; reflexivity.
  - apply (proj2 (proj2 (ensure_returns_its_id_or_None
                           example_utf8_decode example_json_loads
                           example_client fresh_world))
             (GetPipeline embedding_id) embedding_id).
    + vm_compute. do 3 right. left. reflexivity.
    + reflexivity.
Defined.

(** * The further properties on the example worlds *)

Lemma ensure_changes_only_its_pipeline_witness :
  pipelines (final (setup_ingest_pipeline example_client embedding_id
                      embedding_description embedding_processors
                      provisioned_world)) !! normalizer_id
  = pipelines provisioned_world !! normalizer_id
  /\ final (setup_ingest_pipeline example_client normalizer_id
              normalizer_description normalizer_processors rejecting_world)
     = rejecting_world.
Proof.
  split.
  - apply (ensure_changes_only_its_pipeline example_client embedding_id
             embedding_description embedding_processors provisioned_world).
    discriminate.
  - apply (ensure_changes_only_its_pipeline example_client normalizer_id
             normalizer_description normalizer_processors rejecting_world).
    intros x. vm_compute. discriminate.
Defined.

Lemma ensure_again_only_checks_witness :
  creates (trace (setup_ingest_pipeline example_client normalizer_id
                    "another description" []
                    (final (setup_ingest_pipeline example_client normalizer_id
                              normalizer_description normalizer_processors
                              fresh_world)))) = []
  /\ pipelines (final (setup_ingest_pipeline example_client normalizer_id
                         normalizer_description normalizer_processors
                         fresh_world)) !! normalizer_id
     = Some (Pipeline normalizer_description normalizer_processors).
Proof.
  assert (Hres : result (setup_ingest_pipeline example_client normalizer_id
                           normalizer_description normalizer_processors fresh_world)
                 = Ok (Some normalizer_id)) by (vm_compute; reflexivity).
  destruct (ensure_again_only_checks example_client normalizer_id
              normalizer_description normalizer_processors fresh_world Hres)
    as [Hagain Hstored].
  split.
  - rewrite (Hagain "another description" []). reflexivity.
  - apply Hstored. vm_compute; reflexivity.
Defined.

Lemma runs_only_add_the_three_pipelines_witness :
  pipelines (final (main provisioned_world)) !! "logs-default-pipeline"
  = pipelines provisioned_world !! "logs-default-pipeline"
  /\ endpoints (final (main provisioned_world)) = endpoints provisioned_world.
Proof.
  destruct (proj2 (runs_only_add_the_three_pipelines provisioned_world))
    as (_ & Hendpoints & Hother).
  split; [|exact Hendpoints].
  apply Hother. cbn [In]. intros [H|[H|[H|[]]]]; discriminate H.
Defined.

Lemma failed_run_keeps_what_it_created_witness :
  result (create_self_served_crawler_pipelines example_client
            embedding_rejecting_world) = Ok false
  /\ pipelines (final (create_self_served_crawler_pipelines example_client
                         embedding_rejecting_world)) !! normalizer_id
     = Some (Pipeline normalizer_description normalizer_processors).
Proof.
  destruct (failed_run_keeps_what_it_created example_client
              embedding_rejecting_world bad_request)
    as (Hres & _ & Hstored & _).
  - vm_compute; reflexivity.
  - vm_compute; reflexivity.
  - vm_compute; reflexivity.
  - vm_compute; reflexivity.
  - split; assumption.
Defined.

Lemma success_means_all_three_stored_witness :
  is_Some (pipelines (final (create_self_served_crawler_pipelines example_client
                               fresh_world)) !! self_served_id).
Proof.
  apply (success_means_all_three_stored example_client fresh_world).
  vm_compute; reflexivity.
Defined.

Lemma accepting_cluster_creates_what_is_missing_witness :
  creates (trace (create_self_served_crawler_pipelines example_client
                    provisioned_world))
  = [PutPipeline embedding_id embedding_description embedding_processors;
     PutPipeline self_served_id self_served_description self_served_processors].
Proof.
  destruct (accepting_cluster_creates_what_is_missing example_client
              provisioned_world) as [_ Hcreates].
  - split; vm_compute; reflexivity.
  - split; vm_compute; reflexivity.
  - split; vm_compute; reflexivity.
  - rewrite Hcreates. vm_compute; reflexivity.
Defined.

Lemma failure_names_the_rejected_pipeline_witness :
  exists name id e' front,
    In (name, id) [("normalizer", normalizer_id);
                   ("embedding", embedding_id);
                   ("self-served crawler", self_served_id)]
    /\ put_pipeline_error self_served_rejecting_world !! id = Some e'
    /\ printed (trace (create_self_served_crawler_pipelines example_client
                         self_served_rejecting_world)) =
       (front ++
        ["Error creating ingest pipeline '" +:+ id +:+ "': " +:+ str e';
         "Failed to create " +:+ name +:+ " pipeline."])%list.
Proof.
  apply (failure_names_the_rejected_pipeline example_client
           self_served_rejecting_world).
  vm_compute; reflexivity.
Defined.

Lemma get_es_client_failures_witness :
  get_es_client world_without_environ
  = Run (Raise (Exn KeyError "'ES_HOST'")) world_without_environ []
  /\ get_es_client world_with_bare_host
     = Run (Raise missing_scheme) world_with_bare_host []
  /\ get_es_client silent_world
     = Run (Raise (Exn AssertionError "Elasticsearch cluster is not reachable"))
           silent_world [Ping].
Proof.
  split; [|split].
  - apply (proj1 (get_es_client_failures world_without_environ) "ES_HOST").
    vm_compute; reflexivity.
  - apply (proj1 (proj2 (get_es_client_failures world_with_bare_host))
             "es.example.org" "9243" missing_scheme).
    + vm_compute; reflexivity.
    + vm_compute; reflexivity.
    + vm_compute; reflexivity.
    + vm_compute; reflexivity.
  - apply (proj2 (proj2 (get_es_client_failures silent_world))
             "https://es.example.org" "9243").
    + vm_compute; reflexivity.
    + vm_compute; reflexivity.
    + vm_compute; reflexivity.
    + vm_compute; reflexivity.
    + vm_compute; reflexivity.
Defined.

Lemma get_es_client_returns_iff_witness :
  result (get_es_client fresh_world) = Ok example_client
  /\ result (get_es_client world_with_bare_host)
     <> Ok (EsClient "es.example.org:9243" "secret-key").
Proof.
  split.
  - apply (proj1 (get_es_client_returns_iff fresh_world example_client)).
    exists "https://es.example.org", "9243", "secret-key".
    repeat split; vm_compute; reflexivity.
  - intros Hclient.
    apply (proj1 (get_es_client_returns_iff world_with_bare_host _)) in Hclient.
    destruct Hclient as (host & port & key & Hh & Hp & _ & Hconfig & _).
    vm_compute in Hh, Hp. injection Hh as <-. injection Hp as <-.
    vm_compute in Hconfig. discriminate Hconfig.
Defined.

Lemma exit_code_is_1_exactly_on_False_witness :
  exit_code rejecting_world = 1%Z.
Proof.
  apply (proj1 (exit_code_is_1_exactly_on_False rejecting_world)).
  exists example_client. split; vm_compute; reflexivity.
Defined.

Lemma no_client_no_provisioning_witness :
  final (main silent_world) = silent_world
  /\ printed (trace (main silent_world)) =
     ["Setting up self-served crawler pipelines...";
      "An error occurred: Elasticsearch cluster is not reachable"].
Proof.
  destruct (no_client_no_provisioning silent_world
              (Exn AssertionError "Elasticsearch cluster is not reachable"))
    as (Hfinal & _ & Hprinted).
  - vm_compute; reflexivity.
  - split; [exact Hfinal | exact Hprinted].
Defined.

Lemma accepting_cluster_run_exits_0_witness :
  exit_code provisioned_world = 0%Z
  /\ last (printed (trace (main provisioned_world))) =
     Some "Self-served crawler pipelines have been set up successfully.".
Proof.
  destruct (accepting_cluster_run_exits_0 provisioned_world
              "https://es.example.org" "9243" "secret-key")
    as (Hexit & Hlast & _).
  - vm_compute; reflexivity.
  - vm_compute; reflexivity.
  - vm_compute; reflexivity.
  - vm_compute; reflexivity.
  - vm_compute; reflexivity.
  - split; vm_compute; reflexivity.
  - split; vm_compute; reflexivity.
  - split; vm_compute; reflexivity.
  - split; [exact Hexit | exact Hlast].
Defined.

Lemma fetch_gcp_secret_single_access_witness :
  fetch_gcp_secret example_utf8_decode example_json_loads
    world_without_credentials
  = Run (Raise no_credentials) world_without_credentials []
  /\ trace (fetch_gcp_secret example_utf8_decode example_json_loads fresh_world)
     = [AccessSecretVersion
          "projects/rag-query-analytics/secrets/snippets-api-project-service-account-json/versions/latest"]
  /\ result (fetch_gcp_secret example_utf8_decode example_json_loads
               world_without_secret_access) = Raise permission_denied
  /\ result (fetch_gcp_secret example_ascii_decode example_json_loads
               world_with_binary_secret) = Raise invalid_start_byte.
Proof.
  split; [|split; [|split]].
  - apply (fetch_gcp_secret_single_access example_utf8_decode example_json_loads
             world_without_credentials).
    vm_compute; reflexivity.
  - apply (fetch_gcp_secret_single_access example_utf8_decode example_json_loads
             fresh_world).
    vm_compute; reflexivity.
  - apply (fetch_gcp_secret_single_access example_utf8_decode example_json_loads
             world_without_secret_access).
    + vm_compute; reflexivity.
    + vm_compute; reflexivity.
  - apply (proj2 (proj2 (proj2 (proj2 (fetch_gcp_secret_single_access
                                  example_ascii_decode example_json_loads
                                  world_with_binary_secret))))
             (String "255"%char EmptyString)).
    + vm_compute; reflexivity.
    + vm_compute; reflexivity.
    + vm_compute; reflexivity.
Defined.

Lemma endpoint_ensure_changes_nothing_witness :
  result (create_vertexai_embedding_inference_endpoint
            example_utf8_decode example_json_loads
            example_client "vertexai_embeddings" provisioned_world)
  = Ok (Some "vertexai_embeddings")
  /\ result (create_vertexai_embedding_inference_endpoint
               example_utf8_decode example_json_loads
               example_client "vertexai_embeddings" fresh_world)
     = Ok None
  /\ final (create_vertexai_embedding_inference_endpoint
              example_utf8_decode example_json_loads
              example_client "vertexai_embeddings" fresh_world)
     = fresh_world.
Proof.
  split; [|split].
  - apply (proj1 (proj2 (endpoint_ensure_changes_nothing example_utf8_decode
                           example_json_loads example_client
                           "vertexai_embeddings" provisioned_world))).
    split; [exists "{}"|]; vm_compute; reflexivity.
  - apply (proj2 (proj2 (endpoint_ensure_changes_nothing example_utf8_decode
                           example_json_loads example_client
                           "vertexai_embeddings" fresh_world)) "{}").
    + vm_compute; reflexivity.
    + vm_compute; reflexivity.
  - apply (endpoint_ensure_changes_nothing example_utf8_decode
             example_json_loads example_client "vertexai_embeddings" fresh_world).
Defined.

Lemma idempotent_exactly_without_rejection_witness :
  idempotent_from example_client unreachable_world
  /\ ~ idempotent_from example_client self_served_rejecting_world.
Proof.
  split.
  - apply (proj2 (idempotent_exactly_without_rejection example_client
                    unreachable_world)).
    vm_compute. discriminate.
  - intros Hidem.
    apply (proj1 (idempotent_exactly_without_rejection example_client
                    self_served_rejecting_world)) in Hidem.
    apply Hidem. vm_compute; reflexivity.
Defined.
